(** * Verification of the artifact-caching layer of dashboard.py

    Shallow embedding of the Streamlit front end of the credit-scoring
    dashboard: the functions [set_gauge], [graph_features_global_impact],
    [graph_features_local_impact], [graph_feature] and [bivar].

    The program runs against two effects: the local file system (the cache
    directory [./data/tmp/]) and the remote service reached through
    [requests.get]. Both are threaded explicitly through a state monad with
    Python exceptions:
    - the file system is a [gmap string (list Byte.byte)] from paths to contents;
    - every [requests.get] is appended to a request log, and the service
      answers through an oracle [server] that sees the log of the earlier
      requests (so it may answer differently over time). *)

From Stdlib Require Import PrimFloat Ascii.
From stdpp Require Import base gmap strings list pretty.

Open Scope string_scope.
Set Warnings "-register-all".

(** ** Python values and exceptions *)

(** Exceptions that can escape the functions of the module. [requests]
    raises [Timeout] and [ConnectionError]; [list.index] raises
    [ValueError] on a missing element, as does [r.json()] on a body that is
    not JSON; a dictionary lookup on a missing key raises [KeyError]. *)
Inductive exn :=
| Timeout
| ConnectionError
| ValueError
| KeyError
| TypeError
| StreamlitAPIException.

(** Parsed JSON bodies (the result of [r.json()]). Objects are the parsed
    Python dictionaries, as association lists. *)
Inductive json :=
| JNull
| JBool (b : bool)
| JNum (f : float)
| JStr (s : string)
| JList (l : list json)
| JObj (d : list (string * json)).

(** Query parameter values passed in [params=...]. *)
Inductive pval :=
| PInt (z : Z)
| PStr (s : string)
| PBool (b : bool).

(** One call of [requests.get(url, stream=..., params=..., timeout=...)].
    [req_timeout = None] is the call without a [timeout] argument, which
    [requests] turns into "wait forever". *)
Record http_request := {
  req_url : string;
  req_params : list (string * pval);
  req_stream : bool;
  req_timeout : option Z
}.

(** What the remote service does with one request.
    - [Raised e]: [requests.get] itself raises [e] (connection refused,
      connect or read timeout before the headers arrive).
    - [Answer status body parsed cut]: a response with HTTP [status]
      ([requests] does not raise on a 4xx/5xx status). With [cut = None]
      the whole of [body] arrives. With [cut = Some e] the transfer fails
      with [e] (a timeout mid-transfer), and [body] is what a reader of
      the stream obtained before the failure: [shutil.copyfileobj] reads
      [r.raw] in blocks of 64 KiB and a read that fails loses its partial
      block, so [body] is then the whole blocks read, possibly none.
      [parsed] is what [r.json()] makes of the body, [None] when it is
      not JSON. *)
Inductive response :=
| Raised (e : exn)
| Answer (status : Z) (body : list Byte.byte) (parsed : option json)
         (cut : option exn).

(** ** The world and the monad *)

Record world := {
  files : gmap string (list Byte.byte);
  log : list http_request
}.

Inductive result (A : Type) :=
| Ok (a : A)
| Exc (e : exn).
Arguments Ok {A} a.
Arguments Exc {A} e.

Definition M (A : Type) := world -> result A * world.

Definition ret {A} (a : A) : M A := fun w => (Ok a, w).
Definition raise {A} (e : exn) : M A := fun w => (Exc e, w).
Definition bind {A B} (m : M A) (k : A -> M B) : M B :=
  fun w => match m w with
           | (Ok a, w') => k a w'
           | (Exc e, w') => (Exc e, w')
           end.

Notation "'let*' x ':=' m 'in' k" := (bind m (fun x => k))
  (at level 200, x name, m at level 100, k at level 200).

(** ** Python library calls *)

(** [lst.index(x)]: position of the first occurrence, [ValueError] if
    absent. *)
Fixpoint py_index (l : list string) (x : string) : option nat :=
  match l with
  | [] => None
  | y :: l' => if String.eqb y x then Some 0
               else match py_index l' x with
                    | Some i => Some (S i)
                    | None => None
                    end
  end.

Definition list_index (l : list string) (x : string) : M nat :=
  match py_index l x with
  | Some i => ret i
  | None => raise ValueError
  end.

(** [d[k]] on a parsed dictionary. *)
Fixpoint list_find_key (k : string) (d : list (string * json)) : option json :=
  match d with
  | [] => None
  | (k', v) :: d' => if String.eqb k' k then Some v else list_find_key k d'
  end.

(** [x in lst] *)
Definition py_in (x : string) (l : list string) : bool :=
  existsb (String.eqb x) l.

(** [os.path.exists(path)] *)
Definition os_path_exists (path : string) : M bool :=
  fun w => (Ok (bool_decide (is_Some (files w !! path))), w).

(** ** Module-level constants of dashboard.py *)

Definition data_path : string := "./data/".
Definition tmp : string := data_path ++ "tmp/".
Definition url_server : string := "https://ocp7-dbbackend.herokuapp.com".
(** [timeout = 30  # valeur maximum du timeout de requête] *)
Definition timeout : Z := 30.

(** The figure built by [set_gauge] ([go.Figure(go.Indicator(...))]):
    the fields the module sets from data, the rest being constants. *)
Record gauge_figure := {
  fig_mode : string;
  fig_value : json;
  fig_title_text : string;
  fig_title_font_size : Z;
  fig_delta_reference : float
}.

Section Dashboard.

(** The remote service. *)
Variable server : list http_request -> http_request -> response.

(** The lists loaded once at start-up by [get_feature_lists()]. *)
Variables features_list cat_col num_col : list string.

(** [requests.get(...)]: the request is issued (logged) whatever happens.
    Without [stream=True] the body is read inside [requests.get], so a
    transfer failure raises there; with [stream=True] the call returns
    once the headers are in, and the body is read later from [r.raw]. *)
Definition requests_get (q : http_request) : M response :=
  fun w =>
    let w' := {| files := files w; log := log w ++ [q] |} in
    match server (log w) q with
    | Raised e => (Exc e, w')
    | Answer st body js cut as r =>
        if req_stream q then (Ok r, w')
        else match cut with
             | Some e => (Exc e, w')
             | None => (Ok r, w')
             end
    end.

(** [with open(filepath, 'wb') as f: shutil.copyfileobj(r.raw, f)]:
    opening in mode 'wb' creates the file empty (truncating any old one);
    the copy then writes the blocks read from the stream, and a failure
    of the stream propagates after the blocks already read are written
    (the [body] of a cut answer, see [response]). *)
Definition copy_raw_to_file (r : response) (filepath : string) : M unit :=
  fun w =>
    let w0 := {| files := <[filepath := []]> (files w); log := log w |} in
    match r with
    | Raised e => (Exc e, w0)
    | Answer _ body _ cut =>
        let w1 := {| files := <[filepath := body]> (files w0);
                     log := log w0 |} in
        match cut with
        | Some e => (Exc e, w1)
        | None => (Ok tt, w1)
        end
    end.

(** [r.json()] *)
Definition r_json (r : response) : M json :=
  match r with
  | Answer _ _ (Some j) _ => ret j
  | _ => raise ValueError
  end.

(** [d['score']] on a parsed JSON value. *)
Definition json_getitem (j : json) (k : string) : M json :=
  match j with
  | JObj d =>
      match list_find_key k d with
      | Some v => ret v
      | None => raise KeyError
      end
  | _ => raise TypeError
  end.

(** [score >= 0.5]: an IEEE comparison on a float ([False] on NaN);
    Python compares a bool as 0 or 1; other values raise [TypeError]. *)
Definition py_ge_half (j : json) : M bool :=
  match j with
  | JNum f => ret (PrimFloat.leb 0.5 f)
  | JBool b => ret b
  | _ => raise TypeError
  end.

(** ** The functions of dashboard.py *)

Definition set_gauge (client_id : Z) : M gauge_figure :=
  let* r := requests_get
              {| req_url := url_server ++ "/" ++ pretty client_id;
                 req_params := [];
                 req_stream := false;
                 req_timeout := None |} in
  let* j := r_json r in
  let* score := json_getitem j "score" in
  let* ge := py_ge_half score in
  let result := if ge then "Crédit non accepté" else "Crédit accepté" in
  ret {| fig_mode := "gauge+number+delta";
         fig_value := score;
         fig_title_text := result;
         fig_title_font_size := 28%Z;
         fig_delta_reference := 0.5 |}.

(** The file names built by the f-strings of the module. *)
Definition gfgi_path (max_feat : Z) : string :=
  tmp ++ "gfgi_" ++ pretty max_feat ++ ".png".
Definition gfli_path (client_id max_feat : Z) : string :=
  tmp ++ "gfli_" ++ pretty client_id ++ "_" ++ pretty max_feat ++ ".png".
Definition feature_path (client_id : Z) (f_idx : nat) : string :=
  tmp ++ "feature_" ++ pretty client_id ++ "_" ++ pretty f_idx ++ ".png".
Definition bivar_path (i j : nat) : string :=
  tmp ++ "bivar" ++ pretty i ++ "_" ++ pretty j ++ ".png".

Definition graph_features_global_impact (max_feat : Z) : M string :=
  let filepath := gfgi_path max_feat in
  let* ex := os_path_exists filepath in
  let* _ :=
    if ex then ret tt
    else
      let query_param := [("max_feat", PInt max_feat)] in
      let* r := requests_get
                  {| req_url := url_server ++ "/global_impact";
                     req_params := query_param;
                     req_stream := true;
                     req_timeout := Some timeout |} in
      copy_raw_to_file r filepath in
  ret filepath.

Definition graph_features_local_impact (client_id max_feat : Z) : M string :=
  let filepath := gfli_path client_id max_feat in
  let* ex := os_path_exists filepath in
  let* _ :=
    if ex then ret tt
    else
      let query_param := [("max_feat", PInt max_feat)] in
      let* r := requests_get
                  {| req_url := url_server ++ "/" ++ pretty client_id
                                ++ "/local_impact";
                     req_params := query_param;
                     req_stream := true;
                     req_timeout := Some timeout |} in
      copy_raw_to_file r filepath in
  ret filepath.

Definition graph_feature (client_id : Z) (feature : string) : M string :=
  let* f_idx := list_index features_list feature in
  let filepath := feature_path client_id f_idx in
  let* ex := os_path_exists filepath in
  let* _ :=
    if ex then ret tt
    else
      let query_param := [("feature", PStr feature)] in
      let* r := requests_get
                  {| req_url := url_server ++ "/" ++ pretty client_id
                                ++ "/feature";
                     req_params := query_param;
                     req_stream := true;
                     req_timeout := Some timeout |} in
      copy_raw_to_file r filepath in
  ret filepath.

Definition bivar (feature_1 feature_2 : string) : M (string * string) :=
  let* f1_idx := list_index features_list feature_1 in
  let* f2_idx := list_index features_list feature_2 in
  let filepath_1 := bivar_path f1_idx f2_idx in
  let filepath_2 := bivar_path f2_idx f1_idx in
  let* e1 := os_path_exists filepath_1 in
  let* filepath :=
    if e1 then ret filepath_1
    else
      let* e2 := os_path_exists filepath_2 in
      if e2 then ret filepath_2
      else
        let filepath := bivar_path f1_idx f2_idx in
        let query_param := [("feature_1", PStr feature_1);
                            ("feature_2", PStr feature_2)] in
        let* r := requests_get
                    {| req_url := url_server ++ "/graph_bivar";
                       req_params := query_param;
                       req_stream := true;
                       req_timeout := Some 60%Z |} in
        let* _ := copy_raw_to_file r filepath in
        ret filepath in
  let img_size :=
    if (py_in feature_1 cat_col && py_in feature_2 num_col)
       || (py_in feature_1 num_col && py_in feature_2 cat_col)
    then "large" else "normal" in
  ret (filepath, img_size).

(** ** The JSON loaders *)

(** [load_id_list()] (the body; the [@st.cache(persist=True)] wrapper,
    which memoises it across runs, is not modelled). *)
Definition load_id_list : M json :=
  let* r := requests_get
              {| req_url := url_server ++ "/clients_list";
                 req_params := [];
                 req_stream := false;
                 req_timeout := Some timeout |} in
  let* j := r_json r in
  json_getitem j "id_list".

(** [get_feature_lists()] (the body, as above): [r.json()] is called
    once per list, on the same response. *)
Definition get_feature_lists : M (json * json * json) :=
  let* r := requests_get
              {| req_url := url_server ++ "/feature_lists";
                 req_params := [];
                 req_stream := false;
                 req_timeout := Some timeout |} in
  let* j1 := r_json r in
  let* features_list := json_getitem j1 "all" in
  let* j2 := r_json r in
  let* cat_col := json_getitem j2 "cat" in
  let* j3 := r_json r in
  let* num_col := json_getitem j3 "num" in
  ret (features_list, cat_col, num_col).

Definition get_feature_selection_list (client_id : Z) (is_wf : bool)
    (filter : string) : M json :=
  let query_param := [("is_wf", PBool is_wf); ("filter", PStr filter)] in
  let* r := requests_get
              {| req_url := url_server ++ "/" ++ pretty client_id
                            ++ "/feature_selection";
                 req_params := query_param;
                 req_stream := false;
                 req_timeout := Some timeout |} in
  let* j := r_json r in
  json_getitem j "feature_selection".

(** ** The page script *)

(** The radio label to filter translation of the page (lines 256-258 and
    289-291). *)
Definition filter_of_label (label : string) : string :=
  if String.eqb label "Features de la demande de prêt" then "current"
  else if String.eqb label "Feature des prêts antérieurs" then "previous"
  else "all".

(** [list(options)] as [st.selectbox] takes it: a list as is, the keys of
    a dictionary, the characters of a string; other values are not
    iterable. *)
Definition py_iter (j : json) : M (list json) :=
  match j with
  | JList l => ret l
  | JObj d => ret (map (fun kv => JStr kv.1) d)
  | JStr s => ret (map (fun c => JStr (String c EmptyString))
                       (String.list_ascii_of_string s))
  | _ => raise TypeError
  end.

(** [st.selectbox(options=..., ...)] whose widget stands at position
    [index]: [None] when there are no options, the option at [index]
    otherwise (an index out of range is refused by Streamlit). *)
Definition selectbox (options : json) (index : nat) : M json :=
  let* l := py_iter options in
  match l with
  | [] => ret JNull
  | _ => match nth_error l index with
         | Some v => ret v
         | None => raise StreamlitAPIException
         end
  end.

(** [features_list.index(feature)] only succeeds on a string: the feature
    selected by a selectbox is passed to [graph_feature], whose first step
    is that lookup, so a value that is not a string raises [ValueError]
    there before any effect. *)
Definition feature_name (v : json) : M string :=
  match v with
  | JStr s => ret s
  | _ => raise ValueError
  end.

(** The choices the user makes through the widgets of the page. *)
Record ui_input := {
  ui_client_id : Z;        (* selectbox over [clients_id_list] *)
  ui_gl_max_feat : Z;      (* slider 5..30, default 20 *)
  ui_lc_max_feat : Z;      (* slider 5..30, default 16 *)
  ui_is_wf_1 : bool;       (* checkbox, default True *)
  ui_filter_1 : string;    (* radio label *)
  ui_index_1 : nat;        (* position of the feature 1 selectbox *)
  ui_is_wf_2 : bool;
  ui_filter_2 : string;
  ui_index_2 : nat
}.

(** What one run of the page renders. [st.columns([3, 1])] is recorded
    as the weights [[3; 1]], [st.columns(2)] as [[1; 1]]. *)
Record page_output := {
  pg_gauge : gauge_figure;
  pg_global_img : string;
  pg_local_img : string;
  pg_feature_1 : string;
  pg_feature_1_img : string;
  pg_feature_2 : string;
  pg_feature_2_img : string;
  pg_bivar : option (string * list Z)
}.

(** One run of the page script (lines 199-312), top to bottom. *)
Definition page (u : ui_input) : M page_output :=
  let client_id := ui_client_id u in
  let* fig := set_gauge client_id in
  let* gl_img := graph_features_global_impact (ui_gl_max_feat u) in
  let* lc_img := graph_features_local_impact client_id (ui_lc_max_feat u) in
  let filter_1 := filter_of_label (ui_filter_1 u) in
  let* features_list_1 :=
    get_feature_selection_list client_id (ui_is_wf_1 u) filter_1 in
  let* v1 := selectbox features_list_1 (ui_index_1 u) in
  let* feature_1 := feature_name v1 in
  let* img_1 := graph_feature client_id feature_1 in
  let filter_2 := filter_of_label (ui_filter_2 u) in
  let* features_list_2 :=
    get_feature_selection_list client_id (ui_is_wf_2 u) filter_2 in
  let* v2 := selectbox features_list_2 (ui_index_2 u) in
  let* feature_2 := feature_name v2 in
  let* img_2 := graph_feature client_id feature_2 in
  let* panel :=
    if negb (String.eqb feature_1 feature_2) then
      let* res := bivar feature_1 feature_2 in
      let '(img, size) := res in
      let cols := if String.eqb size "large" then [3%Z; 1%Z]
                  else [1%Z; 1%Z] in
      ret (Some (img, cols))
    else ret None in
  ret {| pg_gauge := fig; pg_global_img := gl_img; pg_local_img := lc_img;
         pg_feature_1 := feature_1; pg_feature_1_img := img_1;
         pg_feature_2 := feature_2; pg_feature_2_img := img_2;
         pg_bivar := panel |}.

End Dashboard.

(** ** Concrete session used to exercise the theorems *)

(** A small catalogue: "EDUCATION" categorical, the others numeric. *)
Definition demo_features : list string := ["AGE"; "EDUCATION"; "INCOME"].
Definition demo_cat : list string := ["EDUCATION"].
Definition demo_num : list string := ["AGE"; "INCOME"].

(** A fresh session: empty cache directory, no request issued yet. *)
Definition demo_world : world := {| files := ∅; log := [] |}.

(** A service that always answers 200 with a two-byte body, which parses
    as [{"score": 0.75}]. *)
Definition demo_server (h : list http_request) (q : http_request)
  : response :=
  Answer 200 [Byte.x89; Byte.x50]
    (Some (JObj [("score", JNum 0.75%float)])) None.

(** A service whose stream times out after two bytes: the first 64 KiB
    block is never completed, so the copy obtains no bytes at all. *)
Definition demo_server_cut (h : list http_request) (q : http_request)
  : response :=
  Answer 200 [] None (Some Timeout).

(** A service that answers every request with a 500 error page. *)
Definition demo_server_500 (h : list http_request) (q : http_request)
  : response :=
  Answer 500 [Byte.x3c; Byte.x68] None None.

(** A service for whole runs of the page: every answer is one JSON object
    holding both a score and a feature selection, with a two-byte body. *)
Definition demo_page_server (h : list http_request) (q : http_request)
  : response :=
  Answer 200 [Byte.x89; Byte.x50]
    (Some (JObj [("score", JNum 0.75%float);
                 ("feature_selection", JList [JStr "EDUCATION"; JStr "AGE"])]))
    None.

(** A service whose feature selection is empty. *)
Definition demo_empty_server (h : list http_request) (q : http_request)
  : response :=
  Answer 200 [Byte.x89; Byte.x50]
    (Some (JObj [("score", JNum 0.75%float);
                 ("feature_selection", JList [])]))
    None.

(** A service answering [/feature_lists] with the demo catalogue. *)
Definition demo_lists_body : list (string * json) :=
  [("all", JList [JStr "AGE"; JStr "EDUCATION"; JStr "INCOME"]);
   ("cat", JList [JStr "EDUCATION"]);
   ("num", JList [JStr "AGE"; JStr "INCOME"])].

Definition demo_lists_server (h : list http_request) (q : http_request)
  : response :=
  Answer 200 [] (Some (JObj demo_lists_body)) None.

(** Client 100001, default sliders; feature 1 is the first of the
    selection ("EDUCATION"), feature 2 the second ("AGE"). *)
Definition demo_u : ui_input :=
  {| ui_client_id := 100001; ui_gl_max_feat := 20; ui_lc_max_feat := 16;
     ui_is_wf_1 := true; ui_filter_1 := "Toutes les features";
     ui_index_1 := 0;
     ui_is_wf_2 := true; ui_filter_2 := "Feature des prêts antérieurs";
     ui_index_2 := 1 |}.

(** The same, with "EDUCATION" selected twice. *)
Definition demo_u_same : ui_input :=
  {| ui_client_id := 100001; ui_gl_max_feat := 20; ui_lc_max_feat := 16;
     ui_is_wf_1 := true; ui_filter_1 := "Toutes les features";
     ui_index_1 := 0;
     ui_is_wf_2 := true; ui_filter_2 := "Feature des prêts antérieurs";
     ui_index_2 := 0 |}.

Definition demo_gauge : gauge_figure :=
  {| fig_mode := "gauge+number+delta";
     fig_value := JNum 0.75%float;
     fig_title_text := "Crédit non accepté";
     fig_title_font_size := 28;
     fig_delta_reference := 0.5%float |}.

(** What the page renders for [demo_u]: "EDUCATION" is categorical and
    "AGE" numeric, so the bivariate chart gets the wide layout. *)
Definition demo_page : page_output :=
  {| pg_gauge := demo_gauge;
     pg_global_img := gfgi_path 20; pg_local_img := gfli_path 100001 16;
     pg_feature_1 := "EDUCATION"; pg_feature_1_img := feature_path 100001 1;
     pg_feature_2 := "AGE"; pg_feature_2_img := feature_path 100001 0;
     pg_bivar := Some (bivar_path 1 0, [3%Z; 1%Z]) |}.

Definition demo_page_same : page_output :=
  {| pg_gauge := demo_gauge;
     pg_global_img := gfgi_path 20; pg_local_img := gfli_path 100001 16;
     pg_feature_1 := "EDUCATION"; pg_feature_1_img := feature_path 100001 1;
     pg_feature_2 := "EDUCATION"; pg_feature_2_img := feature_path 100001 1;
     pg_bivar := None |}.

(** ** Outcome of a download on a cache miss *)

(** On a miss, the outcome of the stream request decides everything:
    [Raised e] leaves the files alone; an [Answer] has its body stored at
    the key, complete or cut. *)
Definition after_stream {A} (r : response) (fp : string) (a : A)
    (w : world) (q : http_request) : result A * world :=
  let w' := {| files := files w; log := log w ++ [q] |} in
  match r with
  | Raised e => (Exc e, w')
  | Answer _ body _ cut =>
      let w'' := {| files := <[fp := body]> (files w); log := log w' |} in
      match cut with
      | Some e => (Exc e, w'')
      | None => (Ok a, w'')
      end
  end.

(** The requests issued between two worlds: the log of [w'] extends the
    log of [w] by requests that all satisfy [P]. *)
Definition log_extends (P : http_request -> Prop) (w w' : world) : Prop :=
  exists l, log w' = (log w ++ l)%list /\ Forall P l.

(** A request other than a download of the bivariate plot. *)
Definition not_bivar_request (q : http_request) : Prop :=
  req_url q <> url_server ++ "/graph_bivar".

(** ** Basic facts about the library calls *)

Lemma py_index_None (l : list string) (x : string) :
  x ∉ l -> py_index l x = None.
Proof.
  induction l as [|y l IH]; simpl; intros Hx; [done|].
  destruct (String.eqb_spec y x) as [->|Hne].
  - exfalso. apply Hx. constructor.
  - rewrite IH; [done|]. intros Hin. apply Hx. by constructor.
Qed.

Lemma py_in_spec (x : string) (l : list string) :
  py_in x l = true <-> x ∈ l.
Proof.
  unfold py_in. rewrite existsb_exists, list_elem_of_In. split.
  - intros (y & Hy & Heq). apply String.eqb_eq in Heq. by subst.
  - intros Hin. exists x. split; [done|]. apply String.eqb_refl.
Qed.

(** Step through the monadic code. *)
Ltac run :=
  unfold list_index, os_path_exists, requests_get, copy_raw_to_file,
    r_json, json_getitem, py_ge_half in *;
  unfold bind, ret, raise in *;
  repeat (simplify_eq/=; case_match); simplify_eq/=.

(** *** Cache file names *)

Lemma las_app (s t : string) :
  String.list_ascii_of_string (s ++ t) =
  (String.list_ascii_of_string s ++ String.list_ascii_of_string t)%list.
Proof. induction s as [|c s IH]; simpl; [done|]. by rewrite IH. Qed.

Lemma las_inj (s t : string) :
  String.list_ascii_of_string s = String.list_ascii_of_string t -> s = t.
Proof.
  intros H. rewrite <- (String.string_of_list_ascii_of_string s),
    <- (String.string_of_list_ascii_of_string t), H. done.
Qed.

(** A character that is not a decimal digit never occurs in the decimal
    rendering of a number. *)
Lemma pretty_N_go_avoids (c : Ascii.ascii) (x : N) (s : string) :
  (forall d, pretty_N_char d <> c) ->
  c ∉ String.list_ascii_of_string s ->
  c ∉ String.list_ascii_of_string (pretty_N_go x s).
Proof.
  intros Hd. revert s.
  induction (N.lt_wf_0 x) as [x _ IH]; intros s Hs.
  destruct (decide (x = 0)%N) as [->|Hx]; [by rewrite pretty_N_go_0|].
  rewrite pretty_N_go_step by lia. apply IH; [apply N.div_lt; lia|].
  simpl. rewrite elem_of_cons. intros [Heq|Hin]; [|done].
  by apply (Hd (x `mod` 10)%N).
Qed.

Lemma pretty_N_avoids (c : Ascii.ascii) (x : N) :
  (forall d, pretty_N_char d <> c) ->
  c ∉ String.list_ascii_of_string (pretty x).
Proof.
  intros Hd. unfold pretty, pretty_N. case_decide.
  - simpl. rewrite elem_of_cons. intros [Heq|Hin].
    + by apply (Hd 0%N).
    + by apply not_elem_of_nil in Hin.
  - apply pretty_N_go_avoids; [done|]. apply not_elem_of_nil.
Qed.

Lemma pretty_Z_avoids (c : Ascii.ascii) (z : Z) :
  (forall d, pretty_N_char d <> c) -> c <> "-"%char ->
  c ∉ String.list_ascii_of_string (pretty z).
Proof.
  intros Hd Hm. destruct z as [|p|p]; unfold pretty, pretty_Z.
  - apply (pretty_N_avoids c 0%N Hd).
  - apply (pretty_N_avoids c (Npos p) Hd).
  - rewrite las_app. simpl. rewrite elem_of_cons. intros [Heq|Hin]; [done|].
    by apply (pretty_N_avoids c (Npos p) Hd).
Qed.

Lemma pretty_nat_avoids (c : Ascii.ascii) (n : nat) :
  (forall d, pretty_N_char d <> c) ->
  c ∉ String.list_ascii_of_string (pretty n).
Proof. intros Hd. apply (pretty_N_avoids c (N.of_nat n) Hd). Qed.

Lemma pretty_N_char_not_underscore (d : N) : pretty_N_char d <> "_"%char.
Proof. unfold pretty_N_char. repeat case_match; discriminate. Qed.

(** Splitting at the first occurrence of a separator. *)
Lemma app_sep_inj {A} (c : A) (l1 l2 r1 r2 : list A) :
  c ∉ l1 -> c ∉ l2 -> (l1 ++ c :: r1 = l2 ++ c :: r2)%list -> l1 = l2 /\ r1 = r2.
Proof.
  revert l2. induction l1 as [|x l1 IH]; intros [|y l2] H1 H2 Heq;
    simpl in *; simplify_eq.
  - done.
  - exfalso. apply H2. constructor.
  - exfalso. apply H1. constructor.
  - rewrite elem_of_cons in H1, H2.
    destruct (IH l2) as [-> ->]; [naive_solver|naive_solver|done|done].
Qed.

(** The shape of the cache file names: a fixed prefix, one or two numbers
    separated by "_", and the suffix ".png". *)
Lemma key1_inj (p q a a' : string) :
  p ++ q ++ a ++ ".png" = p ++ q ++ a' ++ ".png" -> a = a'.
Proof.
  intros H. apply (f_equal String.list_ascii_of_string) in H.
  rewrite !las_app in H. do 2 apply app_inv_head in H. apply app_inv_tail in H.
  by apply las_inj.
Qed.

Lemma key2_inj (p q a b a' b' : string) :
  "_"%char ∉ String.list_ascii_of_string a ->
  "_"%char ∉ String.list_ascii_of_string a' ->
  p ++ q ++ a ++ "_" ++ b ++ ".png" = p ++ q ++ a' ++ "_" ++ b' ++ ".png" ->
  a = a' /\ b = b'.
Proof.
  intros Ha Ha' H. apply (f_equal String.list_ascii_of_string) in H.
  rewrite !las_app in H. do 2 apply app_inv_head in H. simpl in H.
  apply app_sep_inj in H as [Hab Hrest]; [|done|done].
  apply app_inv_tail in Hrest. split; by apply las_inj.
Qed.

Lemma pretty_Z_no_underscore (z : Z) :
  "_"%char ∉ String.list_ascii_of_string (pretty z).
Proof.
  apply pretty_Z_avoids; [apply pretty_N_char_not_underscore|discriminate].
Qed.

Lemma pretty_nat_no_underscore (n : nat) :
  "_"%char ∉ String.list_ascii_of_string (pretty n).
Proof. apply pretty_nat_avoids, pretty_N_char_not_underscore. Qed.

Section Properties.

Variable server : list http_request -> http_request -> response.
Variables features_list cat_col num_col : list string.

(** The size tag returned by any normal return of [bivar] is the one
    computed at the end of the function. *)
Lemma bivar_img_size (a b : string) (w w' : world) (fp sz : string) :
  bivar server features_list cat_col num_col a b w = (Ok (fp, sz), w') ->
  sz = if (py_in a cat_col && py_in b num_col)
          || (py_in a num_col && py_in b cat_col)
       then "large" else "normal".
Proof.
  unfold bivar. intros H. run; done.
Qed.

(** The effect of [set_gauge]: one request, to the score endpoint, files
    untouched; the result depends on the service's answer only. *)
Lemma set_gauge_effect (cid : Z) (w : world) :
  snd (set_gauge server cid w) =
    {| files := files w;
       log := log w ++ [{| req_url := url_server ++ "/" ++ pretty cid;
                           req_params := [];
                           req_stream := false;
                           req_timeout := None |}] |}.
Proof. unfold set_gauge. run; done. Qed.

Lemma set_gauge_result_log_only (cid : Z) (w w2 : world) :
  log w2 = log w ->
  fst (set_gauge server cid w2) = fst (set_gauge server cid w).
Proof.
  intros Hlog. unfold set_gauge.
  unfold requests_get, r_json, json_getitem, py_ge_half.
  unfold bind, ret, raise. simpl. rewrite Hlog.
  repeat (simplify_eq/=; case_match); simplify_eq/=; done.
Qed.

(** The four membership tests of the size hint, as propositions. *)
Lemma py_in_dec_cases (x : string) (l : list string) :
  (py_in x l = true /\ x ∈ l) \/ (py_in x l = false /\ x ∉ l).
Proof.
  destruct (py_in x l) eqn:E.
  - left. split; [done|]. by apply py_in_spec.
  - right. split; [done|]. intros Hin. apply py_in_spec in Hin. congruence.
Qed.

(** *** Cache hits and misses of the fetching functions *)

Ltac miss_hit H :=
  unfold list_index, os_path_exists, requests_get, copy_raw_to_file in *;
  unfold bind, ret, raise in *; simpl; rewrite ?H; simpl;
  repeat (simplify_eq/=; case_match); simplify_eq/=;
  try rewrite insert_insert_eq; done.

Lemma gfgi_miss (n : Z) (w : world) :
  files w !! gfgi_path n = None ->
  graph_features_global_impact server n w =
    after_stream
      (server (log w) {| req_url := url_server ++ "/global_impact";
                         req_params := [("max_feat", PInt n)];
                         req_stream := true;
                         req_timeout := Some timeout |})
      (gfgi_path n) (gfgi_path n) w
      {| req_url := url_server ++ "/global_impact";
         req_params := [("max_feat", PInt n)];
         req_stream := true;
         req_timeout := Some timeout |}.
Proof. intros H. unfold graph_features_global_impact, after_stream. miss_hit H. Qed.

Lemma gfgi_hit (n : Z) (w : world) (b : list Byte.byte) :
  files w !! gfgi_path n = Some b ->
  graph_features_global_impact server n w = (Ok (gfgi_path n), w).
Proof. intros H. unfold graph_features_global_impact. miss_hit H. Qed.

Lemma gfli_miss (cid n : Z) (w : world) :
  files w !! gfli_path cid n = None ->
  graph_features_local_impact server cid n w =
    after_stream
      (server (log w) {| req_url := url_server ++ "/" ++ pretty cid
                                   ++ "/local_impact";
                         req_params := [("max_feat", PInt n)];
                         req_stream := true;
                         req_timeout := Some timeout |})
      (gfli_path cid n) (gfli_path cid n) w
      {| req_url := url_server ++ "/" ++ pretty cid ++ "/local_impact";
         req_params := [("max_feat", PInt n)];
         req_stream := true;
         req_timeout := Some timeout |}.
Proof. intros H. unfold graph_features_local_impact, after_stream. miss_hit H. Qed.

Lemma gfli_hit (cid n : Z) (w : world) (b : list Byte.byte) :
  files w !! gfli_path cid n = Some b ->
  graph_features_local_impact server cid n w = (Ok (gfli_path cid n), w).
Proof. intros H. unfold graph_features_local_impact. miss_hit H. Qed.

Lemma feature_miss (cid : Z) (f : string) (i : nat) (w : world) :
  py_index features_list f = Some i ->
  files w !! feature_path cid i = None ->
  graph_feature server features_list cid f w =
    after_stream
      (server (log w) {| req_url := url_server ++ "/" ++ pretty cid
                                   ++ "/feature";
                         req_params := [("feature", PStr f)];
                         req_stream := true;
                         req_timeout := Some timeout |})
      (feature_path cid i) (feature_path cid i) w
      {| req_url := url_server ++ "/" ++ pretty cid ++ "/feature";
         req_params := [("feature", PStr f)];
         req_stream := true;
         req_timeout := Some timeout |}.
Proof.
  intros Hi H. unfold graph_feature, after_stream. unfold list_index; rewrite Hi.
  miss_hit H.
Qed.

Lemma feature_hit (cid : Z) (f : string) (i : nat) (w : world)
    (b : list Byte.byte) :
  py_index features_list f = Some i ->
  files w !! feature_path cid i = Some b ->
  graph_feature server features_list cid f w = (Ok (feature_path cid i), w).
Proof.
  intros Hi H. unfold graph_feature. unfold list_index; rewrite Hi. miss_hit H.
Qed.

Lemma bivar_miss (a b : string) (i j : nat) (w : world) :
  py_index features_list a = Some i ->
  py_index features_list b = Some j ->
  files w !! bivar_path i j = None ->
  files w !! bivar_path j i = None ->
  bivar server features_list cat_col num_col a b w =
    after_stream
      (server (log w) {| req_url := url_server ++ "/graph_bivar";
                         req_params := [("feature_1", PStr a);
                                        ("feature_2", PStr b)];
                         req_stream := true;
                         req_timeout := Some 60%Z |})
      (bivar_path i j) (bivar_path i j, if (py_in a cat_col && py_in b num_col)
                             || (py_in a num_col && py_in b cat_col)
                          then "large" else "normal") w
      {| req_url := url_server ++ "/graph_bivar";
         req_params := [("feature_1", PStr a); ("feature_2", PStr b)];
         req_stream := true;
         req_timeout := Some 60%Z |}.
Proof.
  intros Hi Hj H1 H2. unfold bivar, after_stream.
  unfold list_index; rewrite Hi, Hj. unfold os_path_exists, bind; simpl; rewrite H1; simpl; rewrite H2; simpl.
  miss_hit H1.
Qed.

Lemma bivar_hit_1 (a b : string) (i j : nat) (w : world)
    (c : list Byte.byte) :
  py_index features_list a = Some i ->
  py_index features_list b = Some j ->
  files w !! bivar_path i j = Some c ->
  bivar server features_list cat_col num_col a b w =
    (Ok (bivar_path i j, if (py_in a cat_col && py_in b num_col)
                             || (py_in a num_col && py_in b cat_col)
                          then "large" else "normal"), w).
Proof.
  intros Hi Hj H. unfold bivar. unfold list_index; rewrite Hi, Hj.
  miss_hit H.
Qed.

Lemma bivar_hit_2 (a b : string) (i j : nat) (w : world)
    (c : list Byte.byte) :
  py_index features_list a = Some i ->
  py_index features_list b = Some j ->
  files w !! bivar_path i j = None ->
  files w !! bivar_path j i = Some c ->
  bivar server features_list cat_col num_col a b w =
    (Ok (bivar_path j i, if (py_in a cat_col && py_in b num_col)
                             || (py_in a num_col && py_in b cat_col)
                          then "large" else "normal"), w).
Proof.
  intros Hi Hj H1 H2. unfold bivar. unfold list_index; rewrite Hi, Hj.
  unfold os_path_exists, bind; simpl; rewrite H1; simpl; rewrite H2; simpl. miss_hit H1.
Qed.

Lemma after_stream_ok {A} (r : response) (fp : string) (a r1 : A)
    (w w1 : world) (q : http_request) :
  after_stream r fp a w q = (Ok r1, w1) ->
  r1 = a /\ log w1 = (log w ++ [q])%list /\
  exists body, files w1 = <[fp := body]> (files w).
Proof.
  unfold after_stream. intros H. repeat case_match; simplify_eq/=; eauto.
Qed.

(** A download on a miss touches its own key only. *)
Lemma after_stream_frame {A} (r : response) (fp : string) (a : A)
    (w : world) (q : http_request) (k : string) :
  k <> fp -> files (snd (after_stream r fp a w q)) !! k = files w !! k.
Proof.
  intros Hk. unfold after_stream. repeat case_match; simpl; try done;
    by rewrite lookup_insert_ne by congruence.
Qed.

Lemma feature_unknown (cid : Z) (f : string) (w : world) :
  py_index features_list f = None ->
  graph_feature server features_list cid f w = (Exc ValueError, w).
Proof. intros Hi. unfold graph_feature, list_index. rewrite Hi. done. Qed.

Lemma bivar_unknown (a b : string) (w : world) :
  py_index features_list a = None \/ py_index features_list b = None ->
  bivar server features_list cat_col num_col a b w = (Exc ValueError, w).
Proof.
  intros [Hi|Hi]; unfold bivar, list_index, bind; rewrite Hi; [done|].
  by destruct (py_index features_list a).
Qed.

(** ** Claims *)

(** C4: a single-feature or bivariate request naming a feature absent
    from [features_list] fails with [ValueError] (the spec's
    UnknownFeature) raised by [features_list.index], and the world is left
    as it was: no request was issued and no file was written. *)
Theorem unknown_feature_rejected (cid : Z) (f g : string) (w : world) :
  f ∉ features_list ->
  graph_feature server features_list cid f w = (Exc ValueError, w) /\
  bivar server features_list cat_col num_col f g w = (Exc ValueError, w) /\
  bivar server features_list cat_col num_col g f w = (Exc ValueError, w).
Proof.
  intros Hf. apply py_index_None in Hf.
  unfold graph_feature, bivar. run; done.
Qed.

(** C5: under the catalogue invariant that no feature is both categorical
    and numeric, the size tag returned by [bivar] is "large" exactly when
    one feature is categorical and the other numeric, and "normal" in
    every other case. *)
Theorem bivar_layout_hint_mixed (a b : string) (w w' : world)
    (fp sz : string) :
  (forall x, x ∈ cat_col -> x ∉ num_col) ->
  bivar server features_list cat_col num_col a b w = (Ok (fp, sz), w') ->
  (sz = "large" <->
     ((a ∈ cat_col) /\ (b ∉ cat_col) /\ (b ∈ num_col)) \/
     ((b ∈ cat_col) /\ (a ∉ cat_col) /\ (a ∈ num_col))) /\
  (sz = "normal" <->
     ~ (((a ∈ cat_col) /\ (b ∉ cat_col) /\ (b ∈ num_col)) \/
        ((b ∈ cat_col) /\ (a ∉ cat_col) /\ (a ∈ num_col)))).
Proof.
  intros Hdisj Hrun. apply bivar_img_size in Hrun as ->.
  pose proof (Hdisj a). pose proof (Hdisj b).
  destruct (py_in_dec_cases a cat_col) as [[-> ?]|[-> ?]],
           (py_in_dec_cases a num_col) as [[-> ?]|[-> ?]],
           (py_in_dec_cases b cat_col) as [[-> ?]|[-> ?]],
           (py_in_dec_cases b num_col) as [[-> ?]|[-> ?]];
    simpl; split; split; intros; try naive_solver.
Qed.

(** C9: the size tag of [bivar] does not depend on the order of the two
    features (nor on the state of the cache). *)
Theorem bivar_img_size_symmetric (a b : string) (w1 w1' w2 w2' : world)
    (p1 s1 p2 s2 : string) :
  bivar server features_list cat_col num_col a b w1 = (Ok (p1, s1), w1') ->
  bivar server features_list cat_col num_col b a w2 = (Ok (p2, s2), w2') ->
  s1 = s2.
Proof.
  intros H1 H2. apply bivar_img_size in H1, H2. subst.
  destruct (py_in a cat_col), (py_in a num_col),
           (py_in b cat_col), (py_in b num_col); reflexivity.
Qed.

(** C7: [set_gauge] calls [requests.get] without a [timeout]
    argument, unlike every other call of the module: the request it issues
    carries no bound. *)
Theorem set_gauge_request_unbounded (cid : Z) (w : world) :
  log (snd (set_gauge server cid w)) =
    (log w ++ [{| req_url := url_server ++ "/" ++ pretty cid;
                  req_params := [];
                  req_stream := false;
                  req_timeout := None |}])%list.
Proof. by rewrite set_gauge_effect. Qed.

(** C8: [set_gauge] always issues one live request to the score endpoint,
    never writes the cache (the files are unchanged) and never reads it
    (its result is the same whatever the files are). *)
Theorem set_gauge_bypasses_store (cid : Z) (w : world) :
  files (snd (set_gauge server cid w)) = files w /\
  log (snd (set_gauge server cid w)) =
    (log w ++ [{| req_url := url_server ++ "/" ++ pretty cid;
                  req_params := [];
                  req_stream := false;
                  req_timeout := None |}])%list /\
  (forall fs : gmap string (list Byte.byte),
     fst (set_gauge server cid {| files := fs; log := log w |}) =
     fst (set_gauge server cid w)).
Proof.
  rewrite set_gauge_effect. split; [done|]. split; [done|].
  intros fs. by apply set_gauge_result_log_only.
Qed.

(** C10: when the service answers [{"score": s, ...}], the gauge shows
    the score and its title is "Crédit non accepté" exactly when
    [s >= 0.5], "Crédit accepté" otherwise. *)
Theorem set_gauge_title (cid : Z) (w : world) (st : Z)
    (body : list Byte.byte) (d : list (string * json)) (s : float) :
  server (log w) {| req_url := url_server ++ "/" ++ pretty cid;
                    req_params := [];
                    req_stream := false;
                    req_timeout := None |} =
    Answer st body (Some (JObj d)) None ->
  list_find_key "score" d = Some (JNum s) ->
  exists fig,
    fst (set_gauge server cid w) = Ok fig /\
    fig_value fig = JNum s /\
    (fig_title_text fig = "Crédit non accepté" <->
       PrimFloat.leb 0.5 s = true) /\
    (fig_title_text fig = "Crédit accepté" <->
       PrimFloat.leb 0.5 s = false).
Proof.
  intros Hsrv Hscore. unfold set_gauge.
  unfold requests_get, r_json, json_getitem, py_ge_half.
  unfold bind, ret, raise. simpl. rewrite Hsrv. simpl. rewrite Hscore.
  simpl.
  eexists. split; [reflexivity|]. split; [done|].
  destruct (PrimFloat.leb 0.5 s); simpl; split; split; intros; done.
Qed.

(** C2: on a cache miss, a call that returns normally issues exactly one
    stream request and leaves the artifact on disk; the same call made
    again right after is served from the file: same result, no request,
    no change. This holds for each of the four fetching functions. *)
Theorem fetch_twice_single_call :
  (forall (n : Z) (w w1 : world) (r1 : string),
     files w !! gfgi_path n = None ->
     graph_features_global_impact server n w = (Ok r1, w1) ->
     (exists q, log w1 = (log w ++ [q])%list /\ req_stream q = true) /\
     graph_features_global_impact server n w1 = (Ok r1, w1)) /\
  (forall (cid n : Z) (w w1 : world) (r1 : string),
     files w !! gfli_path cid n = None ->
     graph_features_local_impact server cid n w = (Ok r1, w1) ->
     (exists q, log w1 = (log w ++ [q])%list /\ req_stream q = true) /\
     graph_features_local_impact server cid n w1 = (Ok r1, w1)) /\
  (forall (cid : Z) (f : string) (i : nat) (w w1 : world) (r1 : string),
     py_index features_list f = Some i ->
     files w !! feature_path cid i = None ->
     graph_feature server features_list cid f w = (Ok r1, w1) ->
     (exists q, log w1 = (log w ++ [q])%list /\ req_stream q = true) /\
     graph_feature server features_list cid f w1 = (Ok r1, w1)) /\
  (forall (a b : string) (i j : nat) (w w1 : world) (r1 : string * string),
     py_index features_list a = Some i ->
     py_index features_list b = Some j ->
     files w !! bivar_path i j = None ->
     files w !! bivar_path j i = None ->
     bivar server features_list cat_col num_col a b w = (Ok r1, w1) ->
     (exists q, log w1 = (log w ++ [q])%list /\ req_stream q = true) /\
     bivar server features_list cat_col num_col a b w1 = (Ok r1, w1)).
Proof.
  split; [|split; [|split]].
  - intros n w w1 r1 Hmiss Hrun. rewrite gfgi_miss in Hrun by done.
    apply after_stream_ok in Hrun as (-> & Hlog & body & Hfiles).
    split; [by eexists; split|].
    apply (gfgi_hit _ _ body). rewrite Hfiles. apply lookup_insert_eq.
  - intros cid n w w1 r1 Hmiss Hrun. rewrite gfli_miss in Hrun by done.
    apply after_stream_ok in Hrun as (-> & Hlog & body & Hfiles).
    split; [by eexists; split|].
    apply (gfli_hit _ _ _ body). rewrite Hfiles. apply lookup_insert_eq.
  - intros cid f i w w1 r1 Hi Hmiss Hrun.
    rewrite (feature_miss _ _ i) in Hrun by done.
    apply after_stream_ok in Hrun as (-> & Hlog & body & Hfiles).
    split; [by eexists; split|].
    apply (feature_hit _ _ _ _ body); [done|].
    rewrite Hfiles. apply lookup_insert_eq.
  - intros a b i j w w1 r1 Hi Hj Hm1 Hm2 Hrun.
    rewrite (bivar_miss _ _ i j) in Hrun by done.
    apply after_stream_ok in Hrun as (-> & Hlog & body & Hfiles).
    split; [by eexists; split|].
    apply (bivar_hit_1 _ _ _ _ _ body); [done|done|].
    rewrite Hfiles. apply lookup_insert_eq.
Qed.

(** C1: for two features of the catalogue with no bivariate artifact on
    disk in either order, [bivar a b] issues one request to
    [/graph_bivar] and stores one file, under the as-given order; then
    [bivar b a] issues no request, changes nothing and returns that same
    file, found by its second probe (the reverse-order name), which it
    does not copy to its own primary name. *)
Theorem bivar_pair_single_fetch (a b : string) (i j : nat) (w w1 : world)
    (p1 sz1 : string) :
  py_index features_list a = Some i ->
  py_index features_list b = Some j ->
  files w !! bivar_path i j = None ->
  files w !! bivar_path j i = None ->
  bivar server features_list cat_col num_col a b w = (Ok (p1, sz1), w1) ->
  p1 = bivar_path i j /\
  log w1 = (log w ++ [{| req_url := url_server ++ "/graph_bivar";
                         req_params := [("feature_1", PStr a);
                                        ("feature_2", PStr b)];
                         req_stream := true;
                         req_timeout := Some 60%Z |}])%list /\
  (exists body, files w1 = <[bivar_path i j := body]> (files w)) /\
  (exists sz2,
     bivar server features_list cat_col num_col b a w1 = (Ok (p1, sz2), w1)).
Proof.
  intros Hi Hj Hm1 Hm2 Hrun.
  rewrite (bivar_miss _ _ i j) in Hrun by done.
  apply after_stream_ok in Hrun as (Hr & Hlog & body & Hfiles).
  injection Hr as -> _.
  split; [done|]. split; [done|]. split; [by exists body|].
  eexists.
  destruct (decide (bivar_path j i = bivar_path i j)) as [Heq|Hne].
  - rewrite <- Heq. apply (bivar_hit_1 _ _ _ _ _ body); [done|done|].
    rewrite Hfiles, Heq. apply lookup_insert_eq.
  - apply (bivar_hit_2 _ _ _ _ _ body); [done|done| |].
    + rewrite Hfiles. rewrite lookup_insert_ne by congruence. done.
    + rewrite Hfiles. apply lookup_insert_eq.
Qed.

(** C3 (as the code behaves): on a cache miss, a failure raised by
    [requests.get] itself (before any response) leaves the files as they
    were; but once a response has arrived its body is copied straight to
    the final path of the key, whatever its HTTP status, so an error
    status has its body stored as the artifact and a failure
    mid-transfer raises after leaving at the key the whole blocks copied
    before it, possibly none (an empty file). Shown for [graph_features_global_impact] and [bivar] (the other
    two functions follow the same pattern, see [gfli_miss] and
    [feature_miss]). *)
Theorem stream_failure_effect :
  (forall (n : Z) (w : world),
     files w !! gfgi_path n = None ->
     let q := {| req_url := url_server ++ "/global_impact";
                 req_params := [("max_feat", PInt n)];
                 req_stream := true;
                 req_timeout := Some timeout |} in
     let w' := {| files := files w; log := (log w ++ [q])%list |} in
     (forall e, server (log w) q = Raised e ->
        graph_features_global_impact server n w = (Exc e, w')) /\
     (forall st body js e, server (log w) q = Answer st body js (Some e) ->
        graph_features_global_impact server n w =
          (Exc e, {| files := <[gfgi_path n := body]> (files w);
                     log := log w' |})) /\
     (forall st body js, server (log w) q = Answer st body js None ->
        graph_features_global_impact server n w =
          (Ok (gfgi_path n), {| files := <[gfgi_path n := body]> (files w);
                                log := log w' |}))) /\
  (forall (a b : string) (i j : nat) (w : world),
     py_index features_list a = Some i ->
     py_index features_list b = Some j ->
     files w !! bivar_path i j = None ->
     files w !! bivar_path j i = None ->
     let q := {| req_url := url_server ++ "/graph_bivar";
                 req_params := [("feature_1", PStr a); ("feature_2", PStr b)];
                 req_stream := true;
                 req_timeout := Some 60%Z |} in
     let w' := {| files := files w; log := (log w ++ [q])%list |} in
     (forall e, server (log w) q = Raised e ->
        bivar server features_list cat_col num_col a b w = (Exc e, w')) /\
     (forall st body js e, server (log w) q = Answer st body js (Some e) ->
        bivar server features_list cat_col num_col a b w =
          (Exc e, {| files := <[bivar_path i j := body]> (files w);
                     log := log w' |})) /\
     (forall st body js, server (log w) q = Answer st body js None ->
        exists sz,
        bivar server features_list cat_col num_col a b w =
          (Ok (bivar_path i j, sz),
           {| files := <[bivar_path i j := body]> (files w);
              log := log w' |}))).
Proof.
  split.
  - intros n w Hmiss q w'. subst q w'. rewrite gfgi_miss by done. unfold after_stream.
    split; [|split]; intros * Hs; rewrite Hs; done.
  - intros a b i j w Hi Hj Hm1 Hm2 q w'. subst q w'.
    rewrite (bivar_miss _ _ i j) by done. unfold after_stream.
    split; [|split]; intros * Hs; rewrite Hs; eauto.
Qed.

(** C6 (as the code behaves): [graph_features_global_impact] does no
    range check on [max_feat]. Whatever the value, the only request it
    issues is the one that sends that value unchanged to
    [/global_impact], and only on a cache miss; it raises nothing of its
    own, and every failure is one that the service raised. *)
Theorem global_impact_no_range_check (n : Z) (w : world) :
  let q := {| req_url := url_server ++ "/global_impact";
              req_params := [("max_feat", PInt n)];
              req_stream := true;
              req_timeout := Some timeout |} in
  log (snd (graph_features_global_impact server n w)) =
    (log w ++ match files w !! gfgi_path n with
              | Some _ => []
              | None => [q]
              end)%list /\
  (forall e, fst (graph_features_global_impact server n w) = Exc e ->
     server (log w) q = Raised e \/
     exists st body js, server (log w) q = Answer st body js (Some e)).
Proof.
  intros q. destruct (files w !! gfgi_path n) as [b|] eqn:E.
  - rewrite (gfgi_hit _ _ b) by done. rewrite app_nil_r.
    split; [done|]. intros e He. discriminate.
  - rewrite gfgi_miss by done. unfold after_stream.
    fold q. destruct (server (log w) q) as [e|st body js [e|]] eqn:Hs;
      simpl; split; try done; intros e' He; simplify_eq; eauto.
Qed.

(** *** Running the page step by step *)

Lemma bind_Ok_inv {A B} (m : M A) (k : A -> M B) (w w2 : world) (b : B) :
  bind m k w = (Ok b, w2) -> exists a w1, m w = (Ok a, w1) /\ k a w1 = (Ok b, w2).
Proof. unfold bind. destruct (m w) as [[a|e] w1]; [eauto|done]. Qed.

Lemma bind_Ok {A B} (m : M A) (k : A -> M B) (w w1 : world) (a : A) :
  m w = (Ok a, w1) -> bind m k w = k a w1.
Proof. unfold bind. by intros ->. Qed.

Lemma after_stream_grows {A} (r : response) (fp : string) (a : A)
    (w : world) (q : http_request) (k : string) :
  is_Some (files w !! k) ->
  is_Some (files (snd (after_stream r fp a w q)) !! k).
Proof.
  intros Hk. unfold after_stream. repeat case_match; simpl; try done;
    apply lookup_insert_is_Some'; by right.
Qed.

Lemma after_stream_log {A} (r : response) (fp : string) (a : A)
    (w : world) (q : http_request) :
  log (snd (after_stream r fp a w q)) = (log w ++ [q])%list.
Proof. unfold after_stream. by repeat case_match. Qed.

Lemma gfgi_grows (n : Z) (w : world) (k : string) :
  is_Some (files w !! k) ->
  is_Some (files (snd (graph_features_global_impact server n w)) !! k).
Proof.
  intros Hk. destruct (files w !! gfgi_path n) eqn:E.
  - by erewrite gfgi_hit.
  - rewrite gfgi_miss by done. by apply after_stream_grows.
Qed.

Lemma gfli_grows (cid n : Z) (w : world) (k : string) :
  is_Some (files w !! k) ->
  is_Some (files (snd (graph_features_local_impact server cid n w)) !! k).
Proof.
  intros Hk. destruct (files w !! gfli_path cid n) eqn:E.
  - by erewrite gfli_hit.
  - rewrite gfli_miss by done. by apply after_stream_grows.
Qed.

Lemma feature_grows (cid : Z) (f : string) (w : world) (k : string) :
  is_Some (files w !! k) ->
  is_Some (files (snd (graph_feature server features_list cid f w)) !! k).
Proof.
  intros Hk. destruct (py_index features_list f) as [i|] eqn:Hi;
    [|by rewrite feature_unknown].
  destruct (files w !! feature_path cid i) eqn:E.
  - by erewrite feature_hit.
  - erewrite feature_miss by done. by apply after_stream_grows.
Qed.

Lemma bivar_grows (a b : string) (w : world) (k : string) :
  is_Some (files w !! k) ->
  is_Some (files (snd (bivar server features_list cat_col num_col a b w)) !! k).
Proof.
  intros Hk.
  destruct (py_index features_list a) as [i|] eqn:Hi;
    [|by rewrite bivar_unknown by auto].
  destruct (py_index features_list b) as [j|] eqn:Hj;
    [|by rewrite bivar_unknown by auto].
  destruct (files w !! bivar_path i j) eqn:E1; [by erewrite bivar_hit_1|].
  destruct (files w !! bivar_path j i) eqn:E2; [by erewrite bivar_hit_2|].
  erewrite bivar_miss by done. by apply after_stream_grows.
Qed.

Lemma gfgi_ok (n : Z) (w w' : world) (r : string) :
  graph_features_global_impact server n w = (Ok r, w') ->
  r = gfgi_path n /\ is_Some (files w' !! gfgi_path n).
Proof.
  intros H. destruct (files w !! gfgi_path n) eqn:E.
  - erewrite gfgi_hit in H by done. simplify_eq. by rewrite E.
  - rewrite gfgi_miss in H by done.
    apply after_stream_ok in H as (-> & _ & body & ->).
    split; [done|]. by rewrite lookup_insert_eq.
Qed.

Lemma gfli_ok (cid n : Z) (w w' : world) (r : string) :
  graph_features_local_impact server cid n w = (Ok r, w') ->
  r = gfli_path cid n /\ is_Some (files w' !! gfli_path cid n).
Proof.
  intros H. destruct (files w !! gfli_path cid n) eqn:E.
  - erewrite gfli_hit in H by done. simplify_eq. by rewrite E.
  - rewrite gfli_miss in H by done.
    apply after_stream_ok in H as (-> & _ & body & ->).
    split; [done|]. by rewrite lookup_insert_eq.
Qed.

Lemma feature_ok (cid : Z) (f : string) (w w' : world) (r : string) :
  graph_feature server features_list cid f w = (Ok r, w') ->
  exists i, py_index features_list f = Some i /\ r = feature_path cid i /\
            is_Some (files w' !! feature_path cid i).
Proof.
  intros H. destruct (py_index features_list f) as [i|] eqn:Hi;
    [|by rewrite feature_unknown in H].
  exists i. split; [done|].
  destruct (files w !! feature_path cid i) eqn:E.
  - erewrite feature_hit in H by done. simplify_eq. by rewrite E.
  - erewrite feature_miss in H by done.
    apply after_stream_ok in H as (-> & _ & body & ->).
    split; [done|]. by rewrite lookup_insert_eq.
Qed.

(** A successful [bivar] answers the same, without any effect, from the
    cache it leaves behind. *)
Lemma bivar_rerun (a b : string) (w w' w'' : world) (r : string * string) :
  bivar server features_list cat_col num_col a b w = (Ok r, w') ->
  files w'' = files w' ->
  bivar server features_list cat_col num_col a b w'' = (Ok r, w'').
Proof.
  intros H Hf.
  destruct (py_index features_list a) as [i|] eqn:Hi;
    [|by rewrite bivar_unknown in H by auto].
  destruct (py_index features_list b) as [j|] eqn:Hj;
    [|by rewrite bivar_unknown in H by auto].
  destruct (files w !! bivar_path i j) eqn:E1.
  - erewrite bivar_hit_1 in H by done. simplify_eq.
    erewrite bivar_hit_1; [done|done|done|]. by rewrite Hf.
  - destruct (files w !! bivar_path j i) eqn:E2.
    + erewrite bivar_hit_2 in H by done. simplify_eq.
      erewrite bivar_hit_2; [done|done|done|by rewrite Hf|by rewrite Hf].
    + erewrite bivar_miss in H by done.
      apply after_stream_ok in H as (-> & _ & body & Hw').
      erewrite bivar_hit_1; [done|done|done|]. by rewrite Hf, Hw', lookup_insert_eq.
Qed.

Lemma set_gauge_indep (cid : Z) (w w' w'' : world) (r : gauge_figure) :
  (forall h h' q, server h q = server h' q) ->
  set_gauge server cid w = (Ok r, w') ->
  set_gauge server cid w'' =
    (Ok r, {| files := files w'';
              log := (log w'' ++ [{| req_url := url_server ++ "/" ++ pretty cid;
                                     req_params := [];
                                     req_stream := false;
                                     req_timeout := None |}])%list |}).
Proof.
  intros Hind H. rewrite <- set_gauge_effect.
  rewrite (surjective_pairing (set_gauge server cid w'')). f_equal.
  transitivity (fst (set_gauge server cid w)); [|by rewrite H].
  unfold set_gauge.
  unfold requests_get, r_json, json_getitem, py_ge_half.
  unfold bind, ret, raise. simpl. rewrite (Hind (log w'') (log w)).
  repeat (simplify_eq/=; case_match); simplify_eq/=; done.
Qed.

Lemma selection_effect (cid : Z) (is_wf : bool) (filter : string) (w : world) :
  snd (get_feature_selection_list server cid is_wf filter w) =
    {| files := files w;
       log := (log w ++ [{| req_url := url_server ++ "/" ++ pretty cid
                                       ++ "/feature_selection";
                            req_params := [("is_wf", PBool is_wf);
                                           ("filter", PStr filter)];
                            req_stream := false;
                            req_timeout := Some timeout |}])%list |}.
Proof. unfold get_feature_selection_list. run; done. Qed.

Lemma selection_indep (cid : Z) (is_wf : bool) (filter : string)
    (w w' w'' : world) (r : json) :
  (forall h h' q, server h q = server h' q) ->
  get_feature_selection_list server cid is_wf filter w = (Ok r, w') ->
  get_feature_selection_list server cid is_wf filter w'' =
    (Ok r, snd (get_feature_selection_list server cid is_wf filter w'')).
Proof.
  intros Hind H.
  rewrite (surjective_pairing (get_feature_selection_list _ _ _ _ w'')).
  f_equal.
  transitivity (fst (get_feature_selection_list server cid is_wf filter w));
    [|by rewrite H].
  unfold get_feature_selection_list.
  unfold requests_get, r_json, json_getitem, bind, ret, raise. simpl.
  rewrite (Hind (log w'') (log w)).
  repeat (simplify_eq/=; case_match); simplify_eq/=; done.
Qed.

Lemma selectbox_pure (o : json) (i : nat) (w w' w'' : world) (r : json) :
  selectbox o i w = (Ok r, w') -> w' = w /\ selectbox o i w'' = (Ok r, w'').
Proof.
  unfold selectbox, py_iter, bind, ret, raise.
  intros H. repeat case_match; simplify_eq/=; done.
Qed.

Lemma feature_name_pure (v : json) (w w' w'' : world) (r : string) :
  feature_name v w = (Ok r, w') -> w' = w /\ feature_name v w'' = (Ok r, w'').
Proof.
  unfold feature_name, ret, raise. intros H. repeat case_match; simplify_eq/=; done.
Qed.

Lemma log_extends_refl (P : http_request -> Prop) (w : world) :
  log_extends P w w.
Proof. exists []. by rewrite app_nil_r. Qed.

Lemma log_extends_trans (P : http_request -> Prop) (w1 w2 w3 : world) :
  log_extends P w1 w2 -> log_extends P w2 w3 -> log_extends P w1 w3.
Proof.
  intros (l1 & H1 & F1) (l2 & H2 & F2). exists (l1 ++ l2)%list.
  split; [by rewrite H2, H1, app_assoc|]. by apply Forall_app.
Qed.

Lemma log_extends_one (P : http_request -> Prop) (w w' : world)
    (q : http_request) :
  log w' = (log w ++ [q])%list -> P q -> log_extends P w w'.
Proof. intros H Hq. exists [q]. split; [done|]. by constructor. Qed.

Lemma string_app_nil_r (s : string) : s ++ "" = s.
Proof. induction s as [|c s IH]; [done|]. exact (f_equal (String c) IH). Qed.

(** No other endpoint of the module has the path of the bivariate plot:
    the client id is printed in decimal, and never starts with a "g". *)
Lemma pretty_N_char_not_g (d : N) : pretty_N_char d <> "g"%char.
Proof. unfold pretty_N_char. repeat case_match; discriminate. Qed.

Lemma url_cid_not_bivar (cid : Z) (s : string) :
  (forall t, s <> String "g" t) ->
  url_server ++ "/" ++ pretty cid ++ s <> url_server ++ "/graph_bivar".
Proof.
  intros Hs H. apply (f_equal String.list_ascii_of_string) in H.
  rewrite !las_app in H. apply app_inv_head in H.
  pose proof (pretty_Z_avoids "g" cid pretty_N_char_not_g ltac:(discriminate))
    as Hg.
  revert H Hg. generalize (pretty cid) as pc. intros pc H Hg.
  simpl in H. injection H as H.
  destruct pc as [|c pc]; simpl in H.
  - destruct s as [|c s]; simpl in H; [discriminate|].
    injection H as -> _. by apply (Hs s).
  - injection H as -> _. apply Hg. simpl. left.
Qed.

Lemma set_gauge_log (cid : Z) (w : world) :
  log_extends not_bivar_request w (snd (set_gauge server cid w)).
Proof.
  rewrite set_gauge_effect. eapply log_extends_one; [done|].
  unfold not_bivar_request; simpl. rewrite <- (string_app_nil_r (pretty cid)).
  apply url_cid_not_bivar. discriminate.
Qed.

Lemma gfgi_log (n : Z) (w : world) :
  log_extends not_bivar_request w (snd (graph_features_global_impact server n w)).
Proof.
  destruct (files w !! gfgi_path n) eqn:E.
  - erewrite gfgi_hit by done. apply log_extends_refl.
  - rewrite gfgi_miss by done. eapply log_extends_one; [apply after_stream_log|].
    unfold not_bivar_request, url_server; simpl. discriminate.
Qed.

Lemma gfli_log (cid n : Z) (w : world) :
  log_extends not_bivar_request w
    (snd (graph_features_local_impact server cid n w)).
Proof.
  destruct (files w !! gfli_path cid n) eqn:E.
  - erewrite gfli_hit by done. apply log_extends_refl.
  - rewrite gfli_miss by done. eapply log_extends_one; [apply after_stream_log|].
    apply url_cid_not_bivar. discriminate.
Qed.

Lemma feature_log (cid : Z) (f : string) (w : world) :
  log_extends not_bivar_request w
    (snd (graph_feature server features_list cid f w)).
Proof.
  destruct (py_index features_list f) as [i|] eqn:Hi;
    [|rewrite feature_unknown by done; apply log_extends_refl].
  destruct (files w !! feature_path cid i) eqn:E.
  - erewrite feature_hit by done. apply log_extends_refl.
  - erewrite feature_miss by done.
    eapply log_extends_one; [apply after_stream_log|].
    apply url_cid_not_bivar. discriminate.
Qed.

Lemma selection_log (cid : Z) (is_wf : bool) (filter : string) (w : world) :
  log_extends not_bivar_request w
    (snd (get_feature_selection_list server cid is_wf filter w)).
Proof.
  rewrite selection_effect. eapply log_extends_one; [done|].
  apply url_cid_not_bivar. discriminate.
Qed.

Ltac page_steps H p w1 :=
  unfold page in H; cbv beta zeta in H;
  apply bind_Ok_inv in H as (fig & wa & S1 & H); cbv beta in H;
  apply bind_Ok_inv in H as (gl & wb & S2 & H); cbv beta in H;
  apply bind_Ok_inv in H as (lc & wc & S3 & H); cbv beta in H;
  apply bind_Ok_inv in H as (fl1 & wd & S4 & H); cbv beta in H;
  apply bind_Ok_inv in H as (v1 & we & S5 & H); cbv beta in H;
  apply bind_Ok_inv in H as (f1 & wf & S6 & H); cbv beta in H;
  apply bind_Ok_inv in H as (img1 & wg & S7 & H); cbv beta in H;
  apply bind_Ok_inv in H as (fl2 & wh & S8 & H); cbv beta in H;
  apply bind_Ok_inv in H as (v2 & wi & S9 & H); cbv beta in H;
  apply bind_Ok_inv in H as (f2 & wj & S10 & H); cbv beta in H;
  apply bind_Ok_inv in H as (img2 & wk & S11 & H); cbv beta in H;
  apply bind_Ok_inv in H as (panel & wl & S12 & H); cbv beta in H;
  unfold ret in H; injection H as Hp Hw; subst p; subst w1;
  destruct (selectbox_pure _ _ _ _ wd _ S5) as [-> _];
  destruct (feature_name_pure _ _ _ wd _ S6) as [-> _];
  destruct (selectbox_pure _ _ _ _ wh _ S9) as [-> _];
  destruct (feature_name_pure _ _ _ wh _ S10) as [-> _].

Lemma bivar_ok (a b : string) (w w' : world) (img sz : string) :
  bivar server features_list cat_col num_col a b w = (Ok (img, sz), w') ->
  exists i j, py_index features_list a = Some i /\
              py_index features_list b = Some j /\
              (img = bivar_path i j \/ img = bivar_path j i) /\
              is_Some (files w' !! img).
Proof.
  intros H.
  destruct (py_index features_list a) as [i|] eqn:Hi;
    [|by rewrite bivar_unknown in H by auto].
  destruct (py_index features_list b) as [j|] eqn:Hj;
    [|by rewrite bivar_unknown in H by auto].
  exists i, j. do 2 (split; [done|]).
  destruct (files w !! bivar_path i j) eqn:E1.
  - erewrite bivar_hit_1 in H by done. simplify_eq. rewrite E1. eauto.
  - destruct (files w !! bivar_path j i) eqn:E2.
    + erewrite bivar_hit_2 in H by done. simplify_eq. rewrite E2. eauto.
    + erewrite bivar_miss in H by done.
      apply after_stream_ok in H as (Hr & _ & body & ->). simplify_eq.
      rewrite lookup_insert_eq. eauto.
Qed.

Lemma set_gauge_grows (cid : Z) (w : world) (k : string) :
  is_Some (files w !! k) -> is_Some (files (snd (set_gauge server cid w)) !! k).
Proof. by rewrite set_gauge_effect. Qed.

Lemma selection_grows (cid : Z) (is_wf : bool) (filter : string) (w : world)
    (k : string) :
  is_Some (files w !! k) ->
  is_Some (files (snd (get_feature_selection_list server cid is_wf filter w)) !! k).
Proof. by rewrite selection_effect. Qed.

Lemma step_grows {A} (m : M A) (w w' : world) (a : A) (k : string) :
  (forall v, is_Some (files v !! k) -> is_Some (files (snd (m v)) !! k)) ->
  m w = (Ok a, w') -> is_Some (files w !! k) -> is_Some (files w' !! k).
Proof. intros Hm H Hk. pose proof (Hm w Hk) as G. by rewrite H in G. Qed.

(** A file present after one step of a run is present at the end. *)
(** Rewrite the first step of a run with a lemma about it, taken at the
    world the step starts from. *)
Ltac step T :=
  match goal with
  | |- bind ?m ?k ?v = _ => erewrite (bind_Ok m k v); [cbv beta|T]
  end.

Ltac grow_step S m x y L :=
  eapply (step_grows m x y); [intros ?v ?Hv; apply L; exact Hv | exact S |].

Ltac grow :=
  solve [repeat (assumption ||
    match goal with
    | S : set_gauge ?s ?c ?x = (Ok _, ?y) |- is_Some (files ?y !! _) =>
        grow_step S (set_gauge s c) x y set_gauge_grows
    | S : graph_features_global_impact ?s ?n ?x = (Ok _, ?y)
      |- is_Some (files ?y !! _) =>
        grow_step S (graph_features_global_impact s n) x y gfgi_grows
    | S : graph_features_local_impact ?s ?c ?n ?x = (Ok _, ?y)
      |- is_Some (files ?y !! _) =>
        grow_step S (graph_features_local_impact s c n) x y gfli_grows
    | S : get_feature_selection_list ?s ?c ?b ?f ?x = (Ok _, ?y)
      |- is_Some (files ?y !! _) =>
        grow_step S (get_feature_selection_list s c b f) x y selection_grows
    | S : graph_feature ?s ?l ?c ?f ?x = (Ok _, ?y)
      |- is_Some (files ?y !! _) =>
        grow_step S (graph_feature s l c f) x y feature_grows
    | S : bivar ?s ?l ?cc ?nc ?a ?b ?x = (Ok _, ?y)
      |- is_Some (files ?y !! _) =>
        grow_step S (bivar s l cc nc a b) x y bivar_grows
    end)].

(** ** Further properties of the module *)

(** X1: distinct parameters never share a cache file. Each naming
    scheme is injective: the numbers are printed in decimal and the
    separator "_" never occurs inside a number, so [gfli_100001_16]
    cannot be read two ways. In particular the two probes of [bivar]
    name different files unless both features are the same. *)
Theorem cache_keys_injective :
  (forall n m : Z, gfgi_path n = gfgi_path m -> n = m) /\
  (forall c n c' n' : Z,
     gfli_path c n = gfli_path c' n' -> c = c' /\ n = n') /\
  (forall (c c' : Z) (i i' : nat),
     feature_path c i = feature_path c' i' -> c = c' /\ i = i') /\
  (forall i j i' j' : nat,
     bivar_path i j = bivar_path i' j' -> i = i' /\ j = j').
Proof.
  split; [|split; [|split]].
  - intros n m H. apply key1_inj in H. by apply (inj pretty).
  - intros c n c' n' H. unfold gfli_path in H.
    apply key2_inj in H as [H1 H2];
      [|apply pretty_Z_no_underscore|apply pretty_Z_no_underscore].
    split; by apply (inj pretty).
  - intros c c' i i' H. unfold feature_path in H.
    apply key2_inj in H as [H1 H2];
      [|apply pretty_Z_no_underscore|apply pretty_Z_no_underscore].
    split; by apply (inj pretty).
  - intros i j i' j' H. unfold bivar_path in H.
    apply key2_inj in H as [H1 H2];
      [|apply pretty_nat_no_underscore|apply pretty_nat_no_underscore].
    split; by apply (inj pretty).
Qed.

(** X2: the four functions name their files with different prefixes, so
    an image of one kind is never read or overwritten as another. *)
Theorem cache_keys_disjoint (n c m c' : Z) (i j k : nat) :
  gfgi_path n <> gfli_path c m /\
  gfgi_path n <> feature_path c k /\
  gfgi_path n <> bivar_path i j /\
  gfli_path c m <> feature_path c' k /\
  gfli_path c m <> bivar_path i j /\
  feature_path c k <> bivar_path i j.
Proof.
  unfold gfgi_path, gfli_path, feature_path, bivar_path, tmp, data_path.
  simpl. repeat split; discriminate.
Qed.

(** X3: whatever its outcome, each fetching function changes the cache at
    its own file name only: [graph_features_global_impact n] at
    [gfgi_path n], [graph_features_local_impact cid n] at
    [gfli_path cid n], [graph_feature cid f] at [feature_path cid i] for
    the index [i] of [f], and [bivar f1 f2] at [bivar_path i j] for the
    indices in the order given, never at the reversed name. *)
Theorem fetch_frame :
  (forall (n : Z) (w : world) (k : string), k <> gfgi_path n ->
     files (snd (graph_features_global_impact server n w)) !! k =
     files w !! k) /\
  (forall (cid n : Z) (w : world) (k : string), k <> gfli_path cid n ->
     files (snd (graph_features_local_impact server cid n w)) !! k =
     files w !! k) /\
  (forall (cid : Z) (f : string) (w : world) (k : string),
     (forall i, py_index features_list f = Some i -> k <> feature_path cid i) ->
     files (snd (graph_feature server features_list cid f w)) !! k =
     files w !! k) /\
  (forall (a b : string) (w : world) (k : string),
     (forall i j, py_index features_list a = Some i ->
                  py_index features_list b = Some j -> k <> bivar_path i j) ->
     files (snd (bivar server features_list cat_col num_col a b w)) !! k =
     files w !! k).
Proof.
  split; [|split; [|split]].
  - intros n w k Hk. destruct (files w !! gfgi_path n) eqn:E.
    + by erewrite gfgi_hit.
    + rewrite gfgi_miss by done. by apply after_stream_frame.
  - intros cid n w k Hk. destruct (files w !! gfli_path cid n) eqn:E.
    + by erewrite gfli_hit.
    + rewrite gfli_miss by done. by apply after_stream_frame.
  - intros cid f w k Hk. destruct (py_index features_list f) as [i|] eqn:Hi.
    + destruct (files w !! feature_path cid i) eqn:E.
      * by erewrite feature_hit.
      * erewrite feature_miss by done. apply after_stream_frame. by apply Hk.
    + by rewrite feature_unknown.
  - intros a b w k Hk.
    destruct (py_index features_list a) as [i|] eqn:Hi;
      [|by rewrite bivar_unknown by auto].
    destruct (py_index features_list b) as [j|] eqn:Hj;
      [|by rewrite bivar_unknown by auto].
    destruct (files w !! bivar_path i j) eqn:E1.
    + by erewrite bivar_hit_1.
    + destruct (files w !! bivar_path j i) eqn:E2.
      * by erewrite bivar_hit_2.
      * erewrite bivar_miss by done. apply after_stream_frame. by apply Hk.
Qed.

(** X4: [get_feature_selection_list], which has no cache decorator,
    issues exactly one request on every call, not streamed and bounded by
    the 30 s timeout, whatever the answer, and writes no file: the
    selection lists are fetched anew at each call. *)
Theorem selection_request_effect (cid : Z) (is_wf : bool) (filter : string)
    (w : world) :
  snd (get_feature_selection_list server cid is_wf filter w) =
    {| files := files w;
       log := (log w ++ [{| req_url := url_server ++ "/" ++ pretty cid
                                       ++ "/feature_selection";
                            req_params := [("is_wf", PBool is_wf);
                                           ("filter", PStr filter)];
                            req_stream := false;
                            req_timeout := Some 30%Z |}])%list |}.
Proof. unfold get_feature_selection_list. run; done. Qed.

(** X5: on a complete answer whose body is a JSON object,
    [get_feature_lists] returns the entries "all", "cat" and "num" of
    that one object, and raises [KeyError] as soon as one of them is
    missing. *)
Theorem get_feature_lists_keys (w : world) (st : Z) (body : list Byte.byte)
    (d : list (string * json)) :
  server (log w) {| req_url := url_server ++ "/feature_lists";
                    req_params := [];
                    req_stream := false;
                    req_timeout := Some timeout |} =
    Answer st body (Some (JObj d)) None ->
  fst (get_feature_lists server w) =
    match list_find_key "all" d, list_find_key "cat" d,
          list_find_key "num" d with
    | Some fl, Some cc, Some nc => Ok (fl, cc, nc)
    | _, _, _ => Exc KeyError
    end.
Proof.
  intros Hs. unfold get_feature_lists, requests_get, r_json, json_getitem.
  unfold bind, ret, raise. simpl. rewrite Hs. simpl.
  repeat case_match; simplify_eq/=; done.
Qed.

(** X6: the loaders never return a value from a failed or unusable
    answer: a transfer failure raises its exception, a body that is not
    JSON raises [ValueError], and a JSON object without the expected key
    raises [KeyError]. Shown for the client list and the feature
    selection. *)
Theorem json_loaders_errors (cid : Z) (is_wf : bool) (filter : string)
    (w : world) (st : Z) (body : list Byte.byte) :
  let q1 := {| req_url := url_server ++ "/clients_list";
               req_params := [];
               req_stream := false;
               req_timeout := Some timeout |} in
  let q2 := {| req_url := url_server ++ "/" ++ pretty cid
                          ++ "/feature_selection";
               req_params := [("is_wf", PBool is_wf); ("filter", PStr filter)];
               req_stream := false;
               req_timeout := Some timeout |} in
  (forall js e, server (log w) q1 = Answer st body js (Some e) ->
     fst (load_id_list server w) = Exc e) /\
  (server (log w) q1 = Answer st body None None ->
     fst (load_id_list server w) = Exc ValueError) /\
  (forall d, server (log w) q1 = Answer st body (Some (JObj d)) None ->
     list_find_key "id_list" d = None ->
     fst (load_id_list server w) = Exc KeyError) /\
  (forall js e, server (log w) q2 = Answer st body js (Some e) ->
     fst (get_feature_selection_list server cid is_wf filter w) = Exc e) /\
  (server (log w) q2 = Answer st body None None ->
     fst (get_feature_selection_list server cid is_wf filter w) =
     Exc ValueError) /\
  (forall d, server (log w) q2 = Answer st body (Some (JObj d)) None ->
     list_find_key "feature_selection" d = None ->
     fst (get_feature_selection_list server cid is_wf filter w) =
     Exc KeyError).
Proof.
  intros q1 q2. unfold load_id_list, get_feature_selection_list.
  unfold requests_get, r_json, json_getitem, bind, ret, raise.
  repeat split; intros; simpl; subst q1 q2;
    repeat match goal with H : server _ _ = _ |- _ => rewrite H; clear H end;
    simpl; repeat (case_match; simplify_eq/=); done.
Qed.

(** X7: in a run of the page that completes, the bivariate panel is shown
    exactly when the two selected features differ, and when they are the
    same no download of the bivariate plot is requested. *)
Theorem page_bivar_panel (u : ui_input) (w w1 : world) (p : page_output) :
  page server features_list cat_col num_col u w = (Ok p, w1) ->
  (pg_bivar p = None <-> pg_feature_1 p = pg_feature_2 p) /\
  (pg_feature_1 p = pg_feature_2 p -> log_extends not_bivar_request w w1).
Proof.
  intros H. page_steps H p w1. simpl.
  destruct (String.eqb_spec f1 f2) as [<-|Hne]; simpl in S12.
  - unfold ret in S12. simplify_eq. split; [done|]. intros _.
    pose proof (set_gauge_log (ui_client_id u) w) as L1. rewrite S1 in L1.
    pose proof (gfgi_log (ui_gl_max_feat u) wa) as L2. rewrite S2 in L2.
    pose proof (gfli_log (ui_client_id u) (ui_lc_max_feat u) wb) as L3.
    rewrite S3 in L3.
    pose proof (selection_log (ui_client_id u) (ui_is_wf_1 u)
                  (filter_of_label (ui_filter_1 u)) wc) as L4.
    rewrite S4 in L4.
    pose proof (feature_log (ui_client_id u) f1 wd) as L7. rewrite S7 in L7.
    pose proof (selection_log (ui_client_id u) (ui_is_wf_2 u)
                  (filter_of_label (ui_filter_2 u)) wg) as L8.
    rewrite S8 in L8.
    pose proof (feature_log (ui_client_id u) f1 wh) as L11. rewrite S11 in L11.
    simpl in *.
    apply (log_extends_trans _ _ _ _ L1), (log_extends_trans _ _ _ _ L2),
      (log_extends_trans _ _ _ _ L3), (log_extends_trans _ _ _ _ L4),
      (log_extends_trans _ _ _ _ L7), (log_extends_trans _ _ _ _ L8), L11.
  - apply bind_Ok_inv in S12 as ([img size] & wm & B & S12).
    unfold ret in S12. simplify_eq. split; [|done]. split; [done|]. done.
Qed.

(** X8: every image a completed run of the page displays is a file of
    the cache when the run ends, under the name its function builds: the
    global and local charts under [gfgi_path] and [gfli_path] of the
    slider values, each feature chart under [feature_path] of the
    feature's index, and the bivariate chart under [bivar_path] of the two
    indices, in either order. *)
Theorem page_images_cached (u : ui_input) (w w1 : world) (p : page_output) :
  page server features_list cat_col num_col u w = (Ok p, w1) ->
  pg_global_img p = gfgi_path (ui_gl_max_feat u) /\
  pg_local_img p = gfli_path (ui_client_id u) (ui_lc_max_feat u) /\
  (exists i, py_index features_list (pg_feature_1 p) = Some i /\
             pg_feature_1_img p = feature_path (ui_client_id u) i) /\
  (exists i, py_index features_list (pg_feature_2 p) = Some i /\
             pg_feature_2_img p = feature_path (ui_client_id u) i) /\
  (forall img cols, pg_bivar p = Some (img, cols) ->
     exists i j, py_index features_list (pg_feature_1 p) = Some i /\
                 py_index features_list (pg_feature_2 p) = Some j /\
                 (img = bivar_path i j \/ img = bivar_path j i)) /\
  Forall (fun img => is_Some (files w1 !! img))
    [pg_global_img p; pg_local_img p; pg_feature_1_img p; pg_feature_2_img p] /\
  (forall img cols, pg_bivar p = Some (img, cols) -> is_Some (files w1 !! img)).
Proof.
  intros H. page_steps H p w1. simpl.
  destruct (gfgi_ok _ _ _ _ S2) as [-> P2].
  destruct (gfli_ok _ _ _ _ _ S3) as [-> P3].
  destruct (feature_ok _ _ _ _ _ S7) as (i1 & Hi1 & -> & P7).
  destruct (feature_ok _ _ _ _ _ S11) as (i2 & Hi2 & -> & P11).
  destruct (String.eqb f1 f2) eqn:Ef; cbn [negb] in S12.
  - unfold ret in S12. simplify_eq.
    split; [done|]. split; [done|]. split; [eauto|]. split; [eauto|].
    split; [done|]. split; [|done].
    do 4 (apply Forall_cons; split; [grow|]); constructor.
  - apply bind_Ok_inv in S12 as ([img sz] & wm & B & S12).
    unfold ret in S12. simplify_eq.
    destruct (bivar_ok _ _ _ _ _ _ B) as (i & j & Hi & Hj & Himg & PB).
    split; [done|]. split; [done|]. split; [eauto|]. split; [eauto|].
    split; [intros ?? [= <- _]; eauto 10|]. split.
    + do 4 (apply Forall_cons; split; [grow|]); constructor.
    + by intros ?? [= <- _].
Qed.

(** X9: with a service whose answers do not depend on the requests made
    before, running the page again with the same inputs after a completed
    run renders the same page from the cache: no file changes, and the
    only requests are the three that are never cached, the score and the
    two feature selections. *)
Theorem page_rerun_cached (u : ui_input) (w w1 : world) (p : page_output) :
  (forall h h' q, server h q = server h' q) ->
  page server features_list cat_col num_col u w = (Ok p, w1) ->
  page server features_list cat_col num_col u w1 =
    (Ok p, {| files := files w1;
              log := (log w1 ++
                [{| req_url := url_server ++ "/" ++ pretty (ui_client_id u);
                    req_params := [];
                    req_stream := false;
                    req_timeout := None |};
                 {| req_url := url_server ++ "/" ++ pretty (ui_client_id u)
                               ++ "/feature_selection";
                    req_params := [("is_wf", PBool (ui_is_wf_1 u));
                                   ("filter",
                                    PStr (filter_of_label (ui_filter_1 u)))];
                    req_stream := false;
                    req_timeout := Some timeout |};
                 {| req_url := url_server ++ "/" ++ pretty (ui_client_id u)
                               ++ "/feature_selection";
                    req_params := [("is_wf", PBool (ui_is_wf_2 u));
                                   ("filter",
                                    PStr (filter_of_label (ui_filter_2 u)))];
                    req_stream := false;
                    req_timeout := Some timeout |}])%list |}).
Proof.
  intros Hind H. page_steps H p w1.
  destruct (gfgi_ok _ _ _ _ S2) as [-> P2].
  destruct (gfli_ok _ _ _ _ _ S3) as [-> P3].
  destruct (feature_ok _ _ _ _ _ S7) as (i1 & Hi1 & -> & P7).
  destruct (feature_ok _ _ _ _ _ S11) as (i2 & Hi2 & -> & P11).
  destruct (String.eqb f1 f2) eqn:Ef; cbn [negb] in S12;
    [unfold ret in S12; injection S12 as <- Hw; subst wk
    |apply bind_Ok_inv in S12 as ([img sz] & wm & B & S12);
     unfold ret in S12; injection S12 as <- Hw; subst wm].
  all: assert (Q2 : is_Some (files wl !! gfgi_path (ui_gl_max_feat u)))
         by grow.
  all: assert (Q3 : is_Some (files wl !! gfli_path (ui_client_id u)
                                           (ui_lc_max_feat u))) by grow.
  all: assert (Q7 : is_Some (files wl !! feature_path (ui_client_id u) i1))
         by grow.
  all: assert (Q11 : is_Some (files wl !! feature_path (ui_client_id u) i2))
         by grow.
  all: destruct Q2 as [b2 Q2], Q3 as [b3 Q3], Q7 as [b7 Q7],
         Q11 as [b11 Q11].
  all: unfold page; cbv beta zeta.
  all: step ltac:(eapply set_gauge_indep; [exact Hind|exact S1]).
  all: step ltac:(eapply gfgi_hit; exact Q2).
  all: step ltac:(eapply gfli_hit; exact Q3).
  all: step ltac:(eapply selection_indep; [exact Hind|exact S4]);
         rewrite selection_effect.
  all: step ltac:(apply (proj2 (selectbox_pure _ _ _ _ _ _ S5))).
  all: step ltac:(apply (proj2 (feature_name_pure _ _ _ _ _ S6))).
  all: step ltac:(eapply feature_hit; [exact Hi1|exact Q7]).
  all: step ltac:(eapply selection_indep; [exact Hind|exact S8]);
         rewrite selection_effect.
  all: step ltac:(apply (proj2 (selectbox_pure _ _ _ _ _ _ S9))).
  all: step ltac:(apply (proj2 (feature_name_pure _ _ _ _ _ S10))).
  all: step ltac:(eapply feature_hit; [exact Hi2|exact Q11]).
  all: rewrite Ef; cbn [negb].
  - unfold bind, ret. simpl. by rewrite <- !app_assoc.
  - step ltac:(erewrite bind_Ok by (eapply bivar_rerun; [exact B|done]);
      reflexivity).
    unfold ret. simpl. by rewrite <- !app_assoc.
Qed.

(** X10: when the service answers the feature selection of the first
    feature with an empty list, the page never completes: the selectbox
    then yields [None], which [graph_feature] cannot look up. *)
Theorem page_empty_selection (u : ui_input) (w : world) (st : Z)
    (body : list Byte.byte) (d : list (string * json)) :
  (forall h, server h {| req_url := url_server ++ "/" ++ pretty (ui_client_id u)
                                    ++ "/feature_selection";
                         req_params := [("is_wf", PBool (ui_is_wf_1 u));
                                        ("filter",
                                         PStr (filter_of_label (ui_filter_1 u)))];
                         req_stream := false;
                         req_timeout := Some timeout |} =
             Answer st body (Some (JObj d)) None) ->
  list_find_key "feature_selection" d = Some (JList []) ->
  forall p w1, page server features_list cat_col num_col u w <> (Ok p, w1).
Proof.
  intros Hs Hd p w1 H. page_steps H p w1.
  unfold get_feature_selection_list, requests_get, r_json, json_getitem,
    bind, ret, raise in S4.
  simpl in S4. rewrite Hs in S4. simpl in S4. rewrite Hd in S4.
  simplify_eq.
  unfold selectbox, py_iter, bind, ret in S5. injection S5 as <-.
  unfold feature_name, raise in S6. discriminate.
Qed.

End Properties.

(** ** Witnesses and counterexamples on the concrete session *)

(** C4 at "NOT_A_FEATURE". *)
Lemma unknown_feature_rejected_witness :
  ("NOT_A_FEATURE" ∉ demo_features) /\
  graph_feature demo_server demo_features 100001 "NOT_A_FEATURE" demo_world
    = (Exc ValueError, demo_world).
Proof.
  assert (Hn : "NOT_A_FEATURE" ∉ demo_features).
  { apply (bool_decide_eq_true_1 ("NOT_A_FEATURE" ∉ demo_features)). vm_compute. reflexivity. }
  split; [exact Hn|].
  apply (unknown_feature_rejected demo_server demo_features demo_cat demo_num
           100001 "NOT_A_FEATURE" "AGE" demo_world Hn).
Defined.

(** C5 at the mixed pair ("EDUCATION", "AGE"). *)
Lemma bivar_layout_hint_mixed_witness :
  bivar demo_server demo_features demo_cat demo_num "EDUCATION" "AGE"
    demo_world =
    (Ok (tmp ++ "bivar1_0.png", "large"),
     snd (bivar demo_server demo_features demo_cat demo_num "EDUCATION"
            "AGE" demo_world)) /\
  ("large" = "large" <->
     (("EDUCATION" ∈ demo_cat) /\ ("AGE" ∉ demo_cat) /\
      ("AGE" ∈ demo_num)) \/
     (("AGE" ∈ demo_cat) /\ ("EDUCATION" ∉ demo_cat) /\
      ("EDUCATION" ∈ demo_num))).
Proof.
  assert (Hrun : bivar demo_server demo_features demo_cat demo_num
                   "EDUCATION" "AGE" demo_world =
                 (Ok (tmp ++ "bivar1_0.png", "large"),
                  snd (bivar demo_server demo_features demo_cat demo_num
                         "EDUCATION" "AGE" demo_world))).
  { vm_compute. reflexivity. }
  split; [exact Hrun|].
  refine (proj1 (bivar_layout_hint_mixed demo_server demo_features demo_cat
                   demo_num "EDUCATION" "AGE" demo_world _ _ "large" _ Hrun)).
  intros x Hx Hy. apply list_elem_of_In in Hx, Hy. simpl in Hx, Hy.
  destruct Hx as [<-|[]]. destruct Hy as [Hy|[Hy|[]]]; discriminate.
Defined.

(** C9 at ("EDUCATION", "AGE") and ("AGE", "EDUCATION"). *)
Lemma bivar_img_size_symmetric_witness :
  bivar demo_server demo_features demo_cat demo_num "EDUCATION" "AGE"
    demo_world =
    (Ok (tmp ++ "bivar1_0.png", "large"),
     snd (bivar demo_server demo_features demo_cat demo_num "EDUCATION"
            "AGE" demo_world)) /\
  bivar demo_server demo_features demo_cat demo_num "AGE" "EDUCATION"
    demo_world =
    (Ok (tmp ++ "bivar0_1.png", "large"),
     snd (bivar demo_server demo_features demo_cat demo_num "AGE"
            "EDUCATION" demo_world)) /\
  "large" = "large".
Proof.
  assert (H1 : bivar demo_server demo_features demo_cat demo_num
                 "EDUCATION" "AGE" demo_world =
               (Ok (tmp ++ "bivar1_0.png", "large"),
                snd (bivar demo_server demo_features demo_cat demo_num
                       "EDUCATION" "AGE" demo_world))).
  { vm_compute. reflexivity. }
  assert (H2 : bivar demo_server demo_features demo_cat demo_num
                 "AGE" "EDUCATION" demo_world =
               (Ok (tmp ++ "bivar0_1.png", "large"),
                snd (bivar demo_server demo_features demo_cat demo_num
                       "AGE" "EDUCATION" demo_world))).
  { vm_compute. reflexivity. }
  split; [exact H1|]. split; [exact H2|].
  exact (bivar_img_size_symmetric demo_server demo_features demo_cat demo_num
           _ _ _ _ _ _ _ _ _ _ H1 H2).
Defined.

(** C10 for client 100001, whose score is 0.75. *)
Lemma set_gauge_title_witness :
  demo_server (log demo_world)
    {| req_url := url_server ++ "/" ++ pretty 100001%Z;
       req_params := [];
       req_stream := false;
       req_timeout := None |} =
    Answer 200 [Byte.x89; Byte.x50]
      (Some (JObj [("score", JNum 0.75%float)])) None /\
  list_find_key "score" [("score", JNum 0.75%float)] = Some (JNum 0.75%float) /\
  exists fig,
    fst (set_gauge demo_server 100001 demo_world) = Ok fig /\
    fig_value fig = JNum 0.75%float /\
    (fig_title_text fig = "Crédit non accepté" <->
       PrimFloat.leb 0.5 0.75 = true) /\
    (fig_title_text fig = "Crédit accepté" <->
       PrimFloat.leb 0.5 0.75 = false).
Proof.
  assert (Hs : demo_server (log demo_world)
                 {| req_url := url_server ++ "/" ++ pretty 100001%Z;
                    req_params := [];
                    req_stream := false;
                    req_timeout := None |} =
               Answer 200 [Byte.x89; Byte.x50]
                 (Some (JObj [("score", JNum 0.75%float)])) None).
  { reflexivity. }
  assert (Hk : list_find_key "score" [("score", JNum 0.75%float)] =
               Some (JNum 0.75%float)).
  { reflexivity. }
  split; [exact Hs|]. split; [exact Hk|].
  exact (set_gauge_title demo_server 100001 demo_world _ _ _ _ Hs Hk).
Defined.

(** C1 on the pair ("AGE", "EDUCATION"), indices 0 and 1, fresh cache. *)
Lemma bivar_pair_single_fetch_witness :
  py_index demo_features "AGE" = Some 0 /\
  py_index demo_features "EDUCATION" = Some 1 /\
  files demo_world !! bivar_path 0 1 = None /\
  files demo_world !! bivar_path 1 0 = None /\
  exists w1 sz2,
    bivar demo_server demo_features demo_cat demo_num "AGE" "EDUCATION"
      demo_world = (Ok (bivar_path 0 1, "large"), w1) /\
    bivar demo_server demo_features demo_cat demo_num "EDUCATION" "AGE" w1
      = (Ok (bivar_path 0 1, sz2), w1).
Proof.
  assert (Hi : py_index demo_features "AGE" = Some 0) by reflexivity.
  assert (Hj : py_index demo_features "EDUCATION" = Some 1) by reflexivity.
  assert (H1 : files demo_world !! bivar_path 0 1 = None) by reflexivity.
  assert (H2 : files demo_world !! bivar_path 1 0 = None) by reflexivity.
  assert (Hrun : bivar demo_server demo_features demo_cat demo_num
                   "AGE" "EDUCATION" demo_world =
                 (Ok (bivar_path 0 1, "large"),
                  snd (bivar demo_server demo_features demo_cat demo_num
                         "AGE" "EDUCATION" demo_world))).
  { vm_compute. reflexivity. }
  do 4 (split; [assumption|]).
  destruct (bivar_pair_single_fetch demo_server demo_features demo_cat
              demo_num "AGE" "EDUCATION" 0 1 demo_world _ _ _
              Hi Hj H1 H2 Hrun) as (_ & _ & _ & sz2 & Hsecond).
  exists (snd (bivar demo_server demo_features demo_cat demo_num
                 "AGE" "EDUCATION" demo_world)), sz2.
  split; [exact Hrun | exact Hsecond].
Defined.

(** C2 at [graph_features_global_impact 20] on a fresh cache. *)
Lemma fetch_twice_single_call_witness :
  files demo_world !! gfgi_path 20 = None /\
  graph_features_global_impact demo_server 20 demo_world =
    (Ok (gfgi_path 20),
     snd (graph_features_global_impact demo_server 20 demo_world)) /\
  (exists q,
     log (snd (graph_features_global_impact demo_server 20 demo_world)) =
       (log demo_world ++ [q])%list /\ req_stream q = true) /\
  graph_features_global_impact demo_server 20
    (snd (graph_features_global_impact demo_server 20 demo_world)) =
    (Ok (gfgi_path 20),
     snd (graph_features_global_impact demo_server 20 demo_world)).
Proof.
  assert (Hm : files demo_world !! gfgi_path 20 = None) by reflexivity.
  assert (Hrun : graph_features_global_impact demo_server 20 demo_world =
                 (Ok (gfgi_path 20),
                  snd (graph_features_global_impact demo_server 20
                         demo_world))).
  { vm_compute. reflexivity. }
  split; [exact Hm|]. split; [exact Hrun|].
  exact (proj1 (fetch_twice_single_call demo_server demo_features demo_cat
                  demo_num) 20%Z demo_world _ _ Hm Hrun).
Defined.

(** C3 (amended) at [graph_features_global_impact 20] against a service
    whose stream times out after two bytes: the exception escapes and an
    empty file stays at the key. *)
Lemma stream_failure_effect_witness :
  files demo_world !! gfgi_path 20 = None /\
  demo_server_cut (log demo_world)
    {| req_url := url_server ++ "/global_impact";
       req_params := [("max_feat", PInt 20)];
       req_stream := true;
       req_timeout := Some timeout |} =
    Answer 200 [] None (Some Timeout) /\
  graph_features_global_impact demo_server_cut 20 demo_world =
    (Exc Timeout,
     {| files := <[gfgi_path 20 := []]> (files demo_world);
        log := (log demo_world ++
                [{| req_url := url_server ++ "/global_impact";
                    req_params := [("max_feat", PInt 20)];
                    req_stream := true;
                    req_timeout := Some timeout |}])%list |}).
Proof.
  assert (Hm : files demo_world !! gfgi_path 20 = None) by reflexivity.
  assert (Hs : demo_server_cut (log demo_world)
                 {| req_url := url_server ++ "/global_impact";
                    req_params := [("max_feat", PInt 20)];
                    req_stream := true;
                    req_timeout := Some timeout |} =
               Answer 200 [] None (Some Timeout)).
  { reflexivity. }
  split; [exact Hm|]. split; [exact Hs|].
  exact (proj1 (proj2 (proj1 (stream_failure_effect demo_server_cut
                                demo_features demo_cat demo_num)
                         20%Z demo_world Hm)) _ _ _ _ Hs).
Defined.

(** C3 is false as stated: a timeout in the middle of the transfer leaves
    an empty file at the key, which the next call takes for the cached
    image (it returns the path and issues no request); and an error
    status (500) leaves the error page there as if it were the image. *)
Lemma stream_timeout_leaves_empty_file :
  fst (graph_features_global_impact demo_server_cut 20 demo_world)
    = Exc Timeout /\
  files (snd (graph_features_global_impact demo_server_cut 20 demo_world))
    !! gfgi_path 20 = Some [] /\
  graph_features_global_impact demo_server 20
    (snd (graph_features_global_impact demo_server_cut 20 demo_world)) =
    (Ok (gfgi_path 20),
     snd (graph_features_global_impact demo_server_cut 20 demo_world)) /\
  fst (graph_features_global_impact demo_server_500 20 demo_world)
    = Ok (gfgi_path 20) /\
  files (snd (graph_features_global_impact demo_server_500 20 demo_world))
    !! gfgi_path 20 = Some [Byte.x3c; Byte.x68].
Proof. repeat split; vm_compute; reflexivity. Qed.

(** C6 is false as stated: [max_feat = 3] raises nothing; on a fresh
    cache the value is sent to the service and the answer is stored. *)
Lemma global_impact_accepts_3 :
  graph_features_global_impact demo_server 3 demo_world =
    (Ok (gfgi_path 3),
     {| files := <[gfgi_path 3 := [Byte.x89; Byte.x50]]> ∅;
        log := [{| req_url := url_server ++ "/global_impact";
                   req_params := [("max_feat", PInt 3)];
                   req_stream := true;
                   req_timeout := Some timeout |}] |}).
Proof. vm_compute. reflexivity. Qed.

(** C7: [set_gauge 100001] issues its request with no timeout. *)
Lemma set_gauge_request_unbounded_at_100001 :
  log (snd (set_gauge demo_server 100001 demo_world)) =
    [{| req_url := "https://ocp7-dbbackend.herokuapp.com/100001";
        req_params := [];
        req_stream := false;
        req_timeout := None |}].
Proof. vm_compute. reflexivity. Qed.

(** X5 on the demo catalogue: the three lists of the one answer. *)
Lemma get_feature_lists_keys_witness :
  demo_lists_server (log demo_world)
    {| req_url := url_server ++ "/feature_lists"; req_params := [];
       req_stream := false; req_timeout := Some timeout |} =
    Answer 200 [] (Some (JObj demo_lists_body)) None /\
  fst (get_feature_lists demo_lists_server demo_world) =
    Ok (JList [JStr "AGE"; JStr "EDUCATION"; JStr "INCOME"],
        JList [JStr "EDUCATION"], JList [JStr "AGE"; JStr "INCOME"]).
Proof.
  assert (Hs : demo_lists_server (log demo_world)
    {| req_url := url_server ++ "/feature_lists"; req_params := [];
       req_stream := false; req_timeout := Some timeout |} =
    Answer 200 [] (Some (JObj demo_lists_body)) None) by reflexivity.
  split; [exact Hs|].
  rewrite (get_feature_lists_keys demo_lists_server demo_world 200 []
             demo_lists_body Hs).
  reflexivity.
Defined.

(** X7 with "EDUCATION" selected twice: no bivariate panel, and no
    request for the bivariate plot. *)
Lemma page_bivar_panel_witness :
  page demo_page_server demo_features demo_cat demo_num demo_u_same
    demo_world =
    (Ok demo_page_same,
     snd (page demo_page_server demo_features demo_cat demo_num demo_u_same
            demo_world)) /\
  pg_bivar demo_page_same = None /\
  log_extends not_bivar_request demo_world
    (snd (page demo_page_server demo_features demo_cat demo_num demo_u_same
            demo_world)).
Proof.
  assert (Hrun : page demo_page_server demo_features demo_cat demo_num
                   demo_u_same demo_world =
    (Ok demo_page_same,
     snd (page demo_page_server demo_features demo_cat demo_num demo_u_same
            demo_world))).
  { vm_compute. reflexivity. }
  destruct (page_bivar_panel demo_page_server demo_features demo_cat demo_num
              _ _ _ _ Hrun) as [Hiff Hlog].
  split; [exact Hrun|]. split.
  - apply Hiff. reflexivity.
  - apply Hlog. reflexivity.
Defined.

(** X8 on [demo_u]: the bivariate chart of "EDUCATION" and "AGE" is in
    the cache after the run. *)
Lemma page_images_cached_witness :
  page demo_page_server demo_features demo_cat demo_num demo_u demo_world =
    (Ok demo_page,
     snd (page demo_page_server demo_features demo_cat demo_num demo_u
            demo_world)) /\
  is_Some (files (snd (page demo_page_server demo_features demo_cat demo_num
                         demo_u demo_world)) !! bivar_path 1 0).
Proof.
  assert (Hrun : page demo_page_server demo_features demo_cat demo_num
                   demo_u demo_world =
    (Ok demo_page,
     snd (page demo_page_server demo_features demo_cat demo_num demo_u
            demo_world))).
  { vm_compute. reflexivity. }
  split; [exact Hrun|].
  destruct (page_images_cached demo_page_server demo_features demo_cat
              demo_num _ _ _ _ Hrun) as (_ & _ & _ & _ & _ & _ & HB).
  exact (HB (bivar_path 1 0) [3%Z; 1%Z] eq_refl).
Defined.

(** X9 on [demo_u]: the second run renders [demo_page] again. *)
Lemma page_rerun_cached_witness :
  (forall h h' q, demo_page_server h q = demo_page_server h' q) /\
  page demo_page_server demo_features demo_cat demo_num demo_u demo_world =
    (Ok demo_page,
     snd (page demo_page_server demo_features demo_cat demo_num demo_u
            demo_world)) /\
  fst (page demo_page_server demo_features demo_cat demo_num demo_u
         (snd (page demo_page_server demo_features demo_cat demo_num demo_u
                 demo_world))) = Ok demo_page.
Proof.
  assert (Hind : forall h h' q, demo_page_server h q = demo_page_server h' q)
    by reflexivity.
  assert (Hrun : page demo_page_server demo_features demo_cat demo_num
                   demo_u demo_world =
    (Ok demo_page,
     snd (page demo_page_server demo_features demo_cat demo_num demo_u
            demo_world))).
  { vm_compute. reflexivity. }
  split; [exact Hind|]. split; [exact Hrun|].
  rewrite (page_rerun_cached demo_page_server demo_features demo_cat demo_num
             _ _ _ _ Hind Hrun).
  reflexivity.
Defined.

(** X10 on [demo_u] against a service with an empty selection. *)
Lemma page_empty_selection_witness :
  (forall h, demo_empty_server h
     {| req_url := url_server ++ "/" ++ pretty (ui_client_id demo_u)
                   ++ "/feature_selection";
        req_params := [("is_wf", PBool (ui_is_wf_1 demo_u));
                       ("filter", PStr (filter_of_label (ui_filter_1 demo_u)))];
        req_stream := false;
        req_timeout := Some timeout |} =
     Answer 200 [Byte.x89; Byte.x50]
       (Some (JObj [("score", JNum 0.75%float);
                    ("feature_selection", JList [])])) None) /\
  (forall p w1,
     page demo_empty_server demo_features demo_cat demo_num demo_u demo_world
       <> (Ok p, w1)).
Proof.
  assert (Hs : forall h, demo_empty_server h
     {| req_url := url_server ++ "/" ++ pretty (ui_client_id demo_u)
                   ++ "/feature_selection";
        req_params := [("is_wf", PBool (ui_is_wf_1 demo_u));
                       ("filter", PStr (filter_of_label (ui_filter_1 demo_u)))];
        req_stream := false;
        req_timeout := Some timeout |} =
     Answer 200 [Byte.x89; Byte.x50]
       (Some (JObj [("score", JNum 0.75%float);
                    ("feature_selection", JList [])])) None) by reflexivity.
  split; [exact Hs|].
  exact (page_empty_selection demo_empty_server demo_features demo_cat
           demo_num demo_u demo_world _ _ _ Hs eq_refl).
Defined.
